(** * TasksCompleted backend: authentication, ownership and task handlers

    A shallow embedding of [backend/src/app.js], [backend/src/routes/users.routes.js]
    and [backend/prisma/seed.js].  Request bodies are JSON values with the
    JavaScript coercions the handlers apply to them ([!x], [String(x)],
    [Boolean(x)], [x.trim()]); the Prisma client is an in-memory store threaded
    through every handler; rejected promises are exceptions caught by the
    handlers' [try]/[catch] blocks. *)

From Stdlib Require Import ZArith List String Ascii Bool Lia DecimalString.
From Stdlib Require Import Permutation Sorted.
Import ListNotations.
Local Open Scope string_scope.
Local Open Scope Z_scope.
Set Warnings "-register-all".

(** ** JavaScript values and coercions *)

Module JS.

(** A parsed JSON value.  A string is the UTF-8 encoding of the JavaScript
    string.  A number with an integer value is [JNum z]: a safe integer
    (below 2^53 in magnitude), or beyond that the integer in the shortest
    digits that read back as the same number, which are the digits
    JavaScript prints (2^64 is [JNum 18446744073709552000]).  Any other
    number is [JFrac text], carried as the text [String] prints for it
    (["1.5"], ["2.5e-7"]).  [undefined] is the absence of a value ([None]
    in an [option JValue]). *)
Inductive JValue : Type :=
| JNull
| JBool (b : bool)
| JNum (z : Z)
| JFrac (text : string)
| JStr (s : string)
| JArr (l : list JValue)
| JObj (fields : list (string * JValue)).

(** The result of [Number(s)] on a string: [NaN], an integer, or any other
    number (a fraction or an infinity). *)
Inductive JsNumber : Type :=
| JsNaN
| JsInt (z : Z)
| JsOther.

(** [Number.isNaN]. *)
Definition isNaN (n : JsNumber) : bool :=
  match n with JsNaN => true | _ => false end.

(** Truthiness of a number: [0] and [NaN] are falsy. *)
Definition truthy_number (n : JsNumber) : bool :=
  match n with
  | JsNaN => false
  | JsInt z => negb (z =? 0)
  | JsOther => true
  end.

Definition string_is_empty (s : string) : bool :=
  match s with EmptyString => true | String _ _ => false end.

(** [Boolean(v)]: [null], [false], [0] and the empty string are falsy, every
    other value (all arrays and objects included) is truthy. *)
Definition Boolean (v : JValue) : bool :=
  match v with
  | JNull => false
  | JBool b => b
  | JNum z => negb (z =? 0)
  | JFrac _ => true
  | JStr s => negb (string_is_empty s)
  | JArr _ => true
  | JObj _ => true
  end.

(** Truthiness of a possibly [undefined] value, as tested by [!x] and [x || y]. *)
Definition truthy (v : option JValue) : bool :=
  match v with
  | None => false
  | Some x => Boolean x
  end.

Definition string_of_Z (z : Z) : string := NilZero.string_of_int (Z.to_int z).

(** A string of digits without the zeros at its end. *)
Fixpoint strip_zeros (digits : string) : string :=
  match digits with
  | EmptyString => EmptyString
  | String c rest =>
      match strip_zeros rest with
      | EmptyString => if Ascii.eqb c "0"%char then EmptyString else String c EmptyString
      | kept => String c kept
      end
  end.

(** The exponent form of a positive integer given by its digits: the first
    digit, the remaining significant digits after a point if there are
    any, and the power of ten. *)
Definition exponent_form (digits : string) : string :=
  let power := "e+" ++ string_of_Z (Z.of_nat (String.length digits) - 1) in
  match strip_zeros digits with
  | EmptyString => digits
  | String d EmptyString => String d power
  | String d more => String d ("." ++ more ++ power)
  end.

(** [String(n)] of a number with an integer value: the integer in full
    below 10^21 in magnitude, the exponent form from there on. *)
Definition Number_toString (z : Z) : string :=
  if Z.abs z <? 10 ^ 21 then string_of_Z z
  else if z <? 0 then String "-" (exponent_form (string_of_Z (Z.abs z)))
  else exponent_form (string_of_Z z).

(** Whether an object has [name] among its own properties. *)
Definition has_own (name : string) (fields : list (string * JValue)) : bool :=
  existsb (fun kv => String.eqb name (fst kv)) fields.

(** [sequence l]: every element of [l], or nothing when one is missing. *)
Fixpoint sequence {A} (l : list (option A)) : option (list A) :=
  match l with
  | [] => Some []
  | None :: _ => None
  | Some x :: rest =>
      match sequence rest with
      | Some xs => Some (x :: xs)
      | None => None
      end
  end.

(** [String(v)] of a defined value; [None] when the conversion throws a
    [TypeError].  An array is its elements joined by commas, [null] elements
    printing as nothing.  A plain object is ["[object Object]"], unless it
    has an own [toString] property: a JSON value is not callable, the
    inherited [valueOf] returns the object itself, and the conversion to a
    primitive throws. *)
Fixpoint String_ (v : JValue) : option string :=
  match v with
  | JNull => Some "null"
  | JBool true => Some "true"
  | JBool false => Some "false"
  | JNum z => Some (Number_toString z)
  | JFrac text => Some text
  | JStr s => Some s
  | JArr l =>
      match sequence (map (fun x => match x with
                                    | JNull => Some ""
                                    | _ => String_ x
                                    end) l) with
      | Some pieces => Some (String.concat "," pieces)
      | None => None
      end
  | JObj fields => if has_own "toString" fields then None else Some "[object Object]"
  end.

(** [String(v)] of a possibly [undefined] value. *)
Definition String_of (v : option JValue) : option string :=
  match v with
  | None => Some "undefined"
  | Some x => String_ x
  end.

(** The one-byte white space of [String.prototype.trim]: TAB, LF, VT, FF,
    CR and SPACE. *)
Definition is_white_space (c : ascii) : bool :=
  let n := nat_of_ascii c in
  (Nat.eqb n 32 || (Nat.leb 9 n && Nat.leb n 13))%bool.

Definition byte_is (c : ascii) (n : nat) : bool := Nat.eqb (nat_of_ascii c) n.

(** The two-byte white space: U+00A0 (C2 A0). *)
Definition white_space_2 (c d : ascii) : bool :=
  (byte_is c 194 && byte_is d 160)%bool.

(** The three-byte white space: U+1680 (E1 9A 80), U+2000 to U+200A
    (E2 80 80 to E2 80 8A), U+2028, U+2029 and U+202F (E2 80 A8, A9, AF),
    U+205F (E2 81 9F), U+3000 (E3 80 80) and U+FEFF (EF BB BF). *)
Definition white_space_3 (c d e : ascii) : bool :=
  let x := nat_of_ascii e in
  ((byte_is c 225 && byte_is d 154 && byte_is e 128)
   || (byte_is c 226 && byte_is d 128
       && ((Nat.leb 128 x && Nat.leb x 138)
           || Nat.eqb x 168 || Nat.eqb x 169 || Nat.eqb x 175))
   || (byte_is c 226 && byte_is d 129 && byte_is e 159)
   || (byte_is c 227 && byte_is d 128 && byte_is e 128)
   || (byte_is c 239 && byte_is d 187 && byte_is e 191))%bool.

(** [s.trimStart()]: the white-space characters at the front go, one, two
    or three bytes at a time. *)
Fixpoint trimStart (s : string) : string :=
  match s with
  | EmptyString => EmptyString
  | String c r =>
      if is_white_space c then trimStart r
      else
        match r with
        | EmptyString => s
        | String d r' =>
            if white_space_2 c d then trimStart r'
            else
              match r' with
              | EmptyString => s
              | String e r'' => if white_space_3 c d e then trimStart r'' else s
              end
        end
  end.

(** [s.trimEnd()]: the longest tail made of white space goes. *)
Fixpoint trimEnd (s : string) : string :=
  match s with
  | EmptyString => EmptyString
  | String c rest =>
      if string_is_empty (trimStart s) then EmptyString
      else String c (trimEnd rest)
  end.

(** [s.trim()]. *)
Definition trim (s : string) : string := trimStart (trimEnd s).

(** [header.split(" ")]. *)
Fixpoint split_space_aux (acc : string) (s : string) : list string :=
  match s with
  | EmptyString => [acc]
  | String c rest =>
      if Ascii.eqb c " "%char
      then acc :: split_space_aux EmptyString rest
      else split_space_aux (acc ++ String c EmptyString) rest
  end.

Definition split_space (s : string) : list string := split_space_aux EmptyString s.

(** A request body: the fields of the parsed JSON object, in order, each
    key once. *)
Definition Body : Type := list (string * JValue).

(** Reading a property of an object; [None] is [undefined]. *)
Fixpoint prop (k : string) (o : list (string * JValue)) : option JValue :=
  match o with
  | [] => None
  | (k', v) :: rest => if String.eqb k k' then Some v else prop k rest
  end.

(** [Object.keys(v)] of a JSON value: the field names of an object, in
    order. *)
Definition Object_keys (v : JValue) : list string :=
  match v with
  | JObj fields => map fst fields
  | _ => []
  end.

End JS.

Import JS.

(** ** Errors and the asynchronous store monad *)

(** A JavaScript [Error] as the handlers inspect it: [e.code], [e.message]
    and [String(e)]. *)
Record Err : Type := mkErr {
  err_name : string;
  err_code : option string;
  err_message : string
}.

(** [String(e)] of an error object: its name, a colon and its message. *)
Definition String_of_err (e : Err) : string :=
  err_name e ++ ": " ++ err_message e.

(** [String(e?.message || e)]. *)
Definition err_detail (e : Err) : string :=
  if string_is_empty (err_message e) then String_of_err e else err_message e.

(** [hay.includes(needle)]. *)
Fixpoint includes (needle hay : string) : bool :=
  if String.prefix needle hay then true
  else match hay with
       | EmptyString => false
       | String _ rest => includes needle rest
       end.

(** Modelled from the spec: the Prisma schema is not part of the sources.  A
    user has an id, a unique email, a password column, a name, a string role
    and a creation time; [seed.js] also sets [companyId]. *)
Module User.
Record t : Type := mk {
  id : Z;
  email : string;
  password : string;
  name : string;
  role : string;
  createdAt : Z;
  companyId : option Z
}.
End User.

(** Modelled from the spec: a task has an id, a title, a completed flag
    (default false), its owner's id and creation/update times.  The store
    keeps emails unique and refuses a task whose owner is no user's id. *)
Module Task.
Record t : Type := mk {
  id : Z;
  title : string;
  completed : bool;
  userId : Z;
  createdAt : Z;
  updatedAt : Z
}.
End Task.

Module Company.
Record t : Type := mk {
  id : Z;
  name : string
}.
End Company.

(** The database behind the Prisma client: its tables, the auto-increment
    counters and the clock that stamps rows. *)
Record Db : Type := mkDb {
  users : list User.t;
  tasks : list Task.t;
  companies : list Company.t;
  user_seq : Z;
  task_seq : Z;
  company_seq : Z;
  now : Z
}.

(** The settled state of a promise. *)
Inductive Outcome (A : Type) : Type :=
| Resolved (a : A)
| Rejected (e : Err).
Arguments Resolved {A} a.
Arguments Rejected {A} e.

(** An asynchronous computation over the database.  What it wrote before it
    was rejected stays written. *)
Definition Async (A : Type) : Type := Db -> Outcome A * Db.

Definition ret {A} (a : A) : Async A := fun db => (Resolved a, db).

Definition throw {A} (e : Err) : Async A := fun db => (Rejected e, db).

Definition bind {A B} (m : Async A) (k : A -> Async B) : Async B :=
  fun db =>
    match m db with
    | (Resolved a, db') => k a db'
    | (Rejected e, db') => (Rejected e, db')
    end.

(** [try { m } catch (e) { h(e) }]. *)
Definition try_catch {A} (m : Async A) (h : Err -> Async A) : Async A :=
  fun db =>
    match m db with
    | (Resolved a, db') => (Resolved a, db')
    | (Rejected e, db') => h e db'
    end.

Notation "x <- 'await' m ;; k" := (bind m (fun x => k))
  (at level 61, m at next level, right associativity).
Notation "'await' m ;; k" := (bind m (fun _ => k))
  (at level 61, m at next level, right associativity).

(** ** The Prisma client *)

Module Prisma.

(** The client refuses an argument of the wrong type before it reaches the
    database.  The message stands for the client's longer text, which also
    quotes the call. *)
Definition validation_error (argument : string) : Err :=
  mkErr "PrismaClientValidationError" None
        ("Argument `" ++ argument ++ "`: Invalid value provided.").

(** P2002: a unique constraint (the user's email) would be violated. *)
Definition unique_error : Err :=
  mkErr "PrismaClientKnownRequestError" (Some "P2002")
        "Unique constraint failed on the fields: (`email`)".

(** P2003: a foreign key points at no row. *)
Definition foreign_key_error (field : string) : Err :=
  mkErr "PrismaClientKnownRequestError" (Some "P2003")
        ("Foreign key constraint failed on the field: `" ++ field ++ "`").

(** P2025: the row an update or a delete names does not exist. *)
Definition not_found_error : Err :=
  mkErr "PrismaClientKnownRequestError" (Some "P2025")
        "An operation failed because it depends on one or more records that were required but not found.".

(** A [String] column or filter takes a string and nothing else; [None] is
    an [undefined] argument. *)
Definition string_arg (argument : string) (v : option JValue) : Async string :=
  match v with
  | Some (JStr s) => ret s
  | _ => throw (validation_error argument)
  end.

(** Modelled from the spec: task ids are an [Int] column, a 32-bit signed
    integer. *)
Definition Int_fits (z : Z) : bool := ((-2147483648 <=? z) && (z <=? 2147483647))%bool.

(** An [Int] column or filter takes an integer that fits it and nothing
    else. *)
Definition int_arg (argument : string) (n : JsNumber) : Async Z :=
  match n with
  | JsInt z => if Int_fits z then ret z else throw (validation_error argument)
  | _ => throw (validation_error argument)
  end.

Definition user_by_email (e : string) (db : Db) : option User.t :=
  find (fun u => String.eqb (User.email u) e) (users db).

Definition user_by_id (i : Z) (db : Db) : option User.t :=
  find (fun u => User.id u =? i) (users db).

Definition company_by_id (i : Z) (db : Db) : option Company.t :=
  find (fun c => Company.id c =? i) (companies db).

Definition task_by_id (i : Z) (db : Db) : option Task.t :=
  find (fun t => Task.id t =? i) (tasks db).

Definition task_by_id_owner (i owner : Z) (db : Db) : option Task.t :=
  find (fun t => (Task.id t =? i) && (Task.userId t =? owner))%bool (tasks db).

(** [prisma.user.findMany()]. *)
Definition user_findMany : Async (list User.t) :=
  fun db => (Resolved (users db), db).

(** [prisma.user.findUnique({ where: { email } })]. *)
Definition user_findUnique_email (email : option JValue) : Async (option User.t) :=
  e <- await string_arg "email" email ;;
  fun db => (Resolved (user_by_email e db), db).

(** [prisma.user.findUnique({ where: { id } })]. *)
Definition user_findUnique_id (id : Z) : Async (option User.t) :=
  fun db => (Resolved (user_by_id id db), db).

(** The [data] of [prisma.user.create]. *)
Record UserData : Type := mkUserData {
  data_email : option JValue;
  data_password : option JValue;
  data_name : option JValue;
  data_role : option string;
  data_companyId : option Z
}.

Definition company_exists (c : option Z) (db : Db) : bool :=
  match c with
  | None => true
  | Some i => match company_by_id i db with Some _ => true | None => false end
  end.

(** [prisma.user.create({ data })]: the row gets the next id, the default
    role [USER] unless one is given, and the current time. *)
Definition user_create (data : UserData) : Async User.t :=
  e <- await string_arg "email" (data_email data) ;;
  p <- await string_arg "password" (data_password data) ;;
  n <- await string_arg "name" (data_name data) ;;
  fun db =>
    match user_by_email e db with
    | Some _ => (Rejected unique_error, db)
    | None =>
        if company_exists (data_companyId data) db then
          let u := User.mk (user_seq db) e p n
                     (match data_role data with Some r => r | None => "USER" end)
                     (now db) (data_companyId data) in
          (Resolved u,
           mkDb (users db ++ [u]) (tasks db) (companies db)
                (user_seq db + 1) (task_seq db) (company_seq db) (now db))
        else (Rejected (foreign_key_error "companyId"), db)
    end.

(** [prisma.company.create({ data: { name } })]. *)
Definition company_create (name : string) : Async Company.t :=
  fun db =>
    let c := Company.mk (company_seq db) name in
    (Resolved c,
     mkDb (users db) (tasks db) (companies db ++ [c])
          (user_seq db) (task_seq db) (company_seq db + 1) (now db)).

(** Stable insertion by [createdAt], newest first. *)
Fixpoint insert_desc (t : Task.t) (l : list Task.t) : list Task.t :=
  match l with
  | [] => [t]
  | x :: rest =>
      if Task.createdAt x <=? Task.createdAt t then t :: l
      else x :: insert_desc t rest
  end.

Definition sort_desc (l : list Task.t) : list Task.t := fold_right insert_desc [] l.

(** [prisma.task.findMany({ where: { userId }, orderBy: { createdAt: "desc" } })]. *)
Definition task_findMany (userId : Z) : Async (list Task.t) :=
  fun db =>
    (Resolved (sort_desc (filter (fun t => Task.userId t =? userId) (tasks db))), db).

(** [prisma.task.findFirst({ where: { id, userId } })]. *)
Definition task_findFirst (id : JsNumber) (userId : Z) : Async (option Task.t) :=
  i <- await int_arg "id" id ;;
  fun db => (Resolved (task_by_id_owner i userId db), db).

(** [prisma.task.create({ data: { title, userId } })]. *)
Definition task_create (title : option JValue) (userId : Z) : Async Task.t :=
  s <- await string_arg "title" title ;;
  fun db =>
    match user_by_id userId db with
    | None => (Rejected (foreign_key_error "userId"), db)
    | Some _ =>
        let t := Task.mk (task_seq db) s false userId (now db) (now db) in
        (Resolved t,
         mkDb (users db) (tasks db ++ [t]) (companies db)
              (user_seq db) (task_seq db + 1) (company_seq db) (now db))
    end.

(** The [data] of [prisma.task.update]: each field is set or left out. *)
Record TaskData : Type := mkTaskData {
  data_title : option JValue;
  data_completed : option bool
}.

(** [Object.keys(data)]. *)
Definition data_keys (d : TaskData) : list string :=
  (match data_title d with Some _ => ["title"] | None => [] end) ++
  (match data_completed d with Some _ => ["completed"] | None => [] end).

Definition apply_data (title : option string) (completed : option bool)
    (stamp : Z) (t : Task.t) : Task.t :=
  Task.mk (Task.id t)
          (match title with Some s => s | None => Task.title t end)
          (match completed with Some b => b | None => Task.completed t end)
          (Task.userId t) (Task.createdAt t) stamp.

Definition set_tasks (l : list Task.t) (db : Db) : Db :=
  mkDb (users db) l (companies db)
       (user_seq db) (task_seq db) (company_seq db) (now db).

(** [prisma.task.update({ where: { id }, data })].  With no field in
    [data] the row is returned as it is and nothing is written. *)
Definition task_update (id : JsNumber) (data : TaskData) : Async Task.t :=
  i <- await int_arg "id" id ;;
  title <- await match data_title data with
                 | None => ret None
                 | Some v => s <- await string_arg "title" (Some v) ;; ret (Some s)
                 end ;;
  fun db =>
    match task_by_id i db with
    | None => (Rejected not_found_error, db)
    | Some t =>
        match title, data_completed data with
        | None, None => (Resolved t, db)
        | _, _ =>
            let upd := apply_data title (data_completed data) (now db) in
            (Resolved (upd t),
             set_tasks (map (fun x => if Task.id x =? i then upd x else x) (tasks db)) db)
        end
    end.

(** [prisma.task.delete({ where: { id } })]. *)
Definition task_delete (id : JsNumber) : Async Task.t :=
  i <- await int_arg "id" id ;;
  fun db =>
    match task_by_id i db with
    | None => (Rejected not_found_error, db)
    | Some t =>
        (Resolved t,
         set_tasks (filter (fun x => negb (Task.id x =? i)) (tasks db)) db)
    end.

End Prisma.

(** ** Requests, responses and the process environment *)

(** What [res.send], [res.json] or a bare [res.send()] put in the response. *)
Inductive ResBody : Type :=
| Json (v : JValue)
| Text (s : string)
| NoBody.

Record Response : Type := mkResponse {
  status : Z;
  body : ResBody
}.

(** [res.status(code).json(v)]. *)
Definition json (code : Z) (v : JValue) : Response := mkResponse code (Json v).

(** [{ error: msg }]. *)
Definition error_json (msg : string) : JValue := JObj [("error", JStr msg)].

(** [{ error: msg, detail: String(e?.message || e) }]. *)
Definition error_detail_json (msg : string) (e : Err) : JValue :=
  JObj [("error", JStr msg); ("detail", JStr (err_detail e))].

(** [req.user], attached by [auth]. *)
Module ReqUser.
Record t : Type := mk {
  id : Z;
  role : string
}.
End ReqUser.

Record Request : Type := mkRequest {
  authorization : option string;
  params_id : string;
  req_body : Body
}.

(** [process.env]: each variable is a string or is not set. *)
Record Env : Type := mkEnv {
  env_PORT : option string;
  env_NODE_ENV : option string;
  env_JWT_SECRET : option string;
  env_JWT_EXPIRES_IN : option string
}.

(** [process.env.X || fallback] on strings. *)
Definition or_default (v : option string) (fallback : string) : string :=
  match v with
  | Some s => if string_is_empty s then fallback else s
  | None => fallback
  end.

(** [const NODE_ENV = process.env.NODE_ENV || "development"]. *)
Definition NODE_ENV (env : Env) : string := or_default (env_NODE_ENV env) "development".

(** [const JWT_SECRET = process.env.JWT_SECRET || ""]. *)
Definition JWT_SECRET (env : Env) : string := or_default (env_JWT_SECRET env) "".

(** [process.env.JWT_EXPIRES_IN || "7d"]. *)
Definition JWT_EXPIRES_IN (env : Env) : string := or_default (env_JWT_EXPIRES_IN env) "7d".

(** The [select] of the user queries:
    [{ id: true, email: true, name: true, role: true, createdAt: true }]. *)
Definition select_user (u : User.t) : JValue :=
  JObj [("id", JNum (User.id u));
        ("email", JStr (User.email u));
        ("name", JStr (User.name u));
        ("role", JStr (User.role u));
        ("createdAt", JNum (User.createdAt u))].

(** A user row serialised whole, as a query without [select] returns it. *)
Definition user_json (u : User.t) : JValue :=
  JObj [("id", JNum (User.id u));
        ("email", JStr (User.email u));
        ("password", JStr (User.password u));
        ("name", JStr (User.name u));
        ("role", JStr (User.role u));
        ("createdAt", JNum (User.createdAt u));
        ("companyId", match User.companyId u with Some c => JNum c | None => JNull end)].

Definition task_json (t : Task.t) : JValue :=
  JObj [("id", JNum (Task.id t));
        ("title", JStr (Task.title t));
        ("completed", JBool (Task.completed t));
        ("userId", JNum (Task.userId t));
        ("createdAt", JNum (Task.createdAt t));
        ("updatedAt", JNum (Task.updatedAt t))].

(** The port handed to [app.listen]: a number, or the string of
    [process.env.PORT]. *)
Inductive PortArg : Type :=
| PortNumber (n : JsNumber)
| PortString (s : string).

(** What the process does while it starts, up to the call of [app.listen]
    or of [process.exit]. *)
Inductive Event : Type :=
| ConsoleLog (s : string)
| ConsoleWarn (s : string)
| ConsoleError (s : string) (e : Err)
| PrismaConnect
| Listen (port : PortArg)
| Exit (code : Z).

Definition is_listen (e : Event) : bool :=
  match e with Listen _ => true | _ => false end.

(** The service accepts connections once [app.listen] has been called. *)
Definition accepts_connections (trace : list Event) : bool := existsb is_listen trace.

(** ** The handlers of [app.js] *)

Section Server.

(** The libraries the handlers call: [bcrypt.hash(data, rounds)],
    [bcrypt.compare(data, hash)], [jwt.sign({ sub, role }, secret, { expiresIn })]
    at a given time (it returns the token, or throws, as it does on an empty
    secret or a lifetime it cannot read), [jwt.verify(token, secret)] at a
    given time, and the builtin [Number] on strings. *)
Variable bcrypt_hash : string -> Z -> string.
Variable bcrypt_compare : string -> string -> bool.
Variable jwt_sign : Z -> string -> string -> string -> Z -> Outcome string.
Variable jwt_verify : string -> string -> Z -> option ReqUser.t.
Variable Number : string -> JsNumber.

Variable env : Env.

(** [bcrypt.hash] rejects data that is not a string. *)
Definition bcrypt_hash_async (data : option JValue) (rounds : Z) : Async string :=
  match data with
  | Some (JStr s) => ret (bcrypt_hash s rounds)
  | _ => throw (mkErr "Error" None
                  "data must be a string or Buffer and salt must either be a salt string or a number of rounds")
  end.

(** [bcrypt.compare] rejects data that is not a string. *)
Definition bcrypt_compare_async (data : option JValue) (hash : string) : Async bool :=
  match data with
  | Some (JStr s) => ret (bcrypt_compare s hash)
  | _ => throw (mkErr "Error" None "data and hash must be strings")
  end.

(** [jwt.sign({ sub, role }, JWT_SECRET, { expiresIn: process.env.JWT_EXPIRES_IN || "7d" })]. *)
Definition sign_token (user : User.t) : Async string :=
  fun db =>
    (jwt_sign (User.id user) (User.role user) (JWT_SECRET env) (JWT_EXPIRES_IN env)
              (now db), db).

(** [String(title)], which may throw. *)
Definition String_async (v : option JValue) : Async string :=
  match String_of v with
  | Some s => ret s
  | None => throw (mkErr "TypeError" None "Cannot convert object to primitive value")
  end.

(** [function auth(req, res, next)] of the final version. *)
Definition auth (req : Request) (next : ReqUser.t -> Async Response) : Async Response :=
  let header := or_default (authorization req) "" in
  let parts := split_space header in
  let type := nth_error parts 0 in
  let token := nth_error parts 1 in
  if (negb (match type with Some ty => String.eqb ty "Bearer" | None => false end)
      || match token with Some tok => string_is_empty tok | None => true end)%bool
  then ret (json 401 (error_json "Token requerido (Bearer)"))
  else fun db =>
         match jwt_verify (match token with Some tok => tok | None => "" end)
                          (JWT_SECRET env) (now db) with
         | Some payload => next payload db
         | None => (Resolved (json 401 (error_json "Token inválido o expirado")), db)
         end.

(** *** Final version: the router mounted on [/] and [/api] *)

(** [router.get("/users")]. *)
Definition router_get_users : Async Response :=
  try_catch
    (users <- await Prisma.user_findMany ;;
     ret (json 200 (JArr (map select_user users))))
    (fun e => ret (json 500 (error_detail_json "Error listando usuarios" e))).

(** [isPrismaUniqueError(e)]. *)
Definition isPrismaUniqueError (e : Err) : bool :=
  match err_code e with
  | Some c => String.eqb c "P2002"
  | None => false
  end.

(** [router.post("/users")], the development-only creation of a user. *)
Definition router_post_users (req : Request) : Async Response :=
  if negb (String.eqb (NODE_ENV env) "development") then
    ret (json 404 (error_json "Not found"))
  else
    let email := prop "email" (req_body req) in
    let password := prop "password" (req_body req) in
    let name := prop "name" (req_body req) in
    if (negb (truthy email) || negb (truthy password) || negb (truthy name))%bool then
      ret (json 400 (error_json "email, password y name son obligatorios"))
    else
      try_catch
        (passwordHash <- await bcrypt_hash_async password 10 ;;
         user <- await Prisma.user_create
                   (Prisma.mkUserData email (Some (JStr passwordHash)) name None None) ;;
         ret (json 201 (select_user user)))
        (fun e =>
           if (isPrismaUniqueError e
               || includes "Unique constraint" (String_of_err e))%bool
           then ret (json 409 (error_json "Ese email ya existe"))
           else ret (json 500 (error_detail_json "Error creando usuario" e))).

(** [router.post("/auth/register")]. *)
Definition router_post_auth_register (req : Request) : Async Response :=
  let email := prop "email" (req_body req) in
  let password := prop "password" (req_body req) in
  let name := prop "name" (req_body req) in
  if (negb (truthy email) || negb (truthy password) || negb (truthy name))%bool then
    ret (json 400 (error_json "email, password y name son obligatorios"))
  else
    try_catch
      (existing <- await Prisma.user_findUnique_email email ;;
       match existing with
       | Some _ => ret (json 409 (error_json "Ese email ya existe"))
       | None =>
           passwordHash <- await bcrypt_hash_async password 10 ;;
           user <- await Prisma.user_create
                     (Prisma.mkUserData email (Some (JStr passwordHash)) name None None) ;;
           token <- await sign_token user ;;
           ret (json 201 (JObj [("user", select_user user); ("token", JStr token)]))
       end)
      (fun e => ret (json 500 (error_detail_json "Error en register" e))).

(** [router.post("/auth/login")]. *)
Definition router_post_auth_login (req : Request) : Async Response :=
  let email := prop "email" (req_body req) in
  let password := prop "password" (req_body req) in
  if (negb (truthy email) || negb (truthy password))%bool then
    ret (json 400 (error_json "email y password son obligatorios"))
  else
    try_catch
      (user <- await Prisma.user_findUnique_email email ;;
       match user with
       | None => ret (json 401 (error_json "Credenciales inválidas"))
       | Some user =>
           ok <- await bcrypt_compare_async password (User.password user) ;;
           if negb ok then ret (json 401 (error_json "Credenciales inválidas"))
           else
             token <- await sign_token user ;;
             ret (json 200 (JObj [("user", select_user user); ("token", JStr token)]))
       end)
      (fun e => ret (json 500 (error_detail_json "Error en login" e))).

(** [router.get("/me")], behind [auth]. *)
Definition router_get_me (user : ReqUser.t) : Async Response :=
  try_catch
    (found <- await Prisma.user_findUnique_id (ReqUser.id user) ;;
     ret (json 200 (match found with Some u => select_user u | None => JNull end)))
    (fun e => ret (json 500 (error_detail_json "Error en /me" e))).

(** [router.get("/tasks")], behind [auth]. *)
Definition router_get_tasks (user : ReqUser.t) : Async Response :=
  try_catch
    (tasks <- await Prisma.task_findMany (ReqUser.id user) ;;
     ret (json 200 (JArr (map task_json tasks))))
    (fun e => ret (json 500 (error_detail_json "Error listando tareas" e))).

(** [router.post("/tasks")], behind [auth]. *)
Definition router_post_tasks (user : ReqUser.t) (req : Request) : Async Response :=
  let title := prop "title" (req_body req) in
  if negb (truthy title) then ret (json 400 (error_json "title es obligatorio"))
  else
    try_catch
      (text <- await String_async title ;;
       task <- await Prisma.task_create (Some (JStr (trim text))) (ReqUser.id user) ;;
       ret (json 201 (task_json task)))
      (fun e => ret (json 500 (error_detail_json "Error creando tarea" e))).

(** The [data] object the final [PATCH] handler builds from the body;
    [String(title)] may throw while it is built. *)
Definition patch_data (title completed : option JValue) : Async Prisma.TaskData :=
  title' <- await match title with
                  | Some t => text <- await String_async (Some t) ;;
                              ret (Some (JStr (trim text)))
                  | None => ret None
                  end ;;
  ret (Prisma.mkTaskData
         title'
         (match completed with Some c => Some (Boolean c) | None => None end)).

(** [router.patch("/tasks/:id")], behind [auth].  The [data] object is
    built outside the [try]: when [String(title)] throws, the handler's
    promise is rejected and no response is sent. *)
Definition router_patch_task (user : ReqUser.t) (req : Request) : Async Response :=
  let id := Number (params_id req) in
  let title := prop "title" (req_body req) in
  let completed := prop "completed" (req_body req) in
  if isNaN id then ret (json 400 (error_json "id inválido"))
  else
    data <- await patch_data title completed ;;
    if Nat.eqb (List.length (Prisma.data_keys data)) 0 then
      ret (json 400 (error_json "Nada que actualizar"))
    else
      try_catch
        (existing <- await Prisma.task_findFirst id (ReqUser.id user) ;;
         match existing with
         | None => ret (json 404 (error_json "Tarea no encontrada"))
         | Some _ =>
             updated <- await Prisma.task_update id data ;;
             ret (json 200 (task_json updated))
         end)
        (fun e => ret (json 500 (error_detail_json "Error actualizando tarea" e))).

(** [router.delete("/tasks/:id")], behind [auth]. *)
Definition router_delete_task (user : ReqUser.t) (req : Request) : Async Response :=
  let id := Number (params_id req) in
  if isNaN id then ret (json 400 (error_json "id inválido"))
  else
    try_catch
      (existing <- await Prisma.task_findFirst id (ReqUser.id user) ;;
       match existing with
       | None => ret (json 404 (error_json "Tarea no encontrada"))
       | Some _ =>
           await Prisma.task_delete id ;;
           ret (mkResponse 204 NoBody)
       end)
      (fun e => ret (json 500 (error_detail_json "Error borrando tarea" e))).

(** The rejection of [prisma.$connect()] when the database is out of reach. *)
Definition connect_error : Err :=
  mkErr "PrismaClientInitializationError" None "Can't reach database server".

(** [const PORT = Number(process.env.PORT) || 4000]. *)
Definition PORT : JsNumber :=
  let n := match env_PORT env with Some s => Number s | None => JsNaN end in
  if truthy_number n then n else JsInt 4000.

(** [app.listen(port)] throws at once unless the port is an integer from 0
    to 65535. *)
Definition port_ok (port : JsNumber) : bool :=
  match port with
  | JsInt z => ((0 <=? z) && (z <=? 65535))%bool
  | _ => false
  end.

(** [async function start()] of the final version, given whether
    [prisma.$connect()] succeeds: the events up to the point where the
    promise settles, and how it settles.  [Listen] stands for a call of
    [app.listen] that did not throw. *)
Definition start (connects : bool) : list Event * Outcome unit :=
  if string_is_empty (JWT_SECRET env) then
    ([], Rejected (mkErr "Error" None "Falta JWT_SECRET en el .env"))
  else if negb connects then
    ([PrismaConnect], Rejected connect_error)
  else if negb (port_ok PORT) then
    ([PrismaConnect; ConsoleLog "✅ Prisma conectado a la DB"],
     Rejected (mkErr "RangeError" (Some "ERR_SOCKET_BAD_PORT")
                     "options.port should be >= 0 and < 65536."))
  else
    ([PrismaConnect;
      ConsoleLog "✅ Prisma conectado a la DB";
      Listen (PortNumber PORT)],
     Resolved tt).

(** [start().catch((err) => { console.error(...); process.exit(1); })]. *)
Definition run_start (connects : bool) : list Event :=
  match start connects with
  | (trace, Resolved _) => trace
  | (trace, Rejected e) =>
      trace ++ [ConsoleError "❌ Error al iniciar:" e; Exit 1]
  end.

(** *** Earlier version: handlers registered on [app] *)

(** [app.post("/users")] of the earlier version. *)
Definition app_post_users (req : Request) : Async Response :=
  let email := prop "email" (req_body req) in
  let password := prop "password" (req_body req) in
  let name := prop "name" (req_body req) in
  if (negb (truthy email) || negb (truthy password) || negb (truthy name))%bool then
    ret (json 400 (error_json "email, password y name son obligatorios"))
  else
    try_catch
      (user <- await Prisma.user_create
                 (Prisma.mkUserData email password name None None) ;;
       ret (json 201 (select_user user)))
      (fun e =>
         if includes "Unique constraint" (String_of_err e)
         then ret (json 409 (error_json "Ese email ya existe"))
         else ret (json 500 (error_detail_json "Error creando usuario" e))).

(** [app.patch("/tasks/:id")] of the earlier version, behind [auth]. *)
Definition app_patch_task (user : ReqUser.t) (req : Request) : Async Response :=
  let id := Number (params_id req) in
  let title := prop "title" (req_body req) in
  let completed := prop "completed" (req_body req) in
  if isNaN id then ret (json 400 (error_json "id inválido"))
  else
    try_catch
      (existing <- await Prisma.task_findFirst id (ReqUser.id user) ;;
       match existing with
       | None => ret (json 404 (error_json "Tarea no encontrada"))
       | Some _ =>
           updated <- await Prisma.task_update id
                        (Prisma.mkTaskData
                           title
                           (match completed with
                            | Some c => Some (Boolean c)
                            | None => None
                            end)) ;;
           ret (json 200 (task_json updated))
       end)
      (fun e => ret (json 500 (error_detail_json "Error actualizando tarea" e))).

(** [const PORT = process.env.PORT || 3000] of the earlier version. *)
Definition PORT_earlier : PortArg :=
  match env_PORT env with
  | Some s => if string_is_empty s then PortNumber (JsInt 3000) else PortString s
  | None => PortNumber (JsInt 3000)
  end.

(** [async function start()] of the earlier version, with its own
    [try]/[catch].  [Listen] is the call of [app.listen] with the port as
    configured, taken to be one that [app.listen] accepts. *)
Definition start_earlier (connects : bool) : list Event :=
  (match env_JWT_SECRET env with
   | Some s => if string_is_empty s
               then [ConsoleWarn "⚠️ Falta JWT_SECRET en .env (Auth no funcionará bien)"]
               else []
   | None => [ConsoleWarn "⚠️ Falta JWT_SECRET en .env (Auth no funcionará bien)"]
   end) ++
  if connects then
    [PrismaConnect;
     ConsoleLog "✅ Prisma conectado a la DB";
     Listen PORT_earlier]
  else
    [PrismaConnect; ConsoleError "❌ Error al iniciar:" connect_error; Exit 1].

End Server.

(** ** [routes/users.routes.js] *)

(** [router.get("/")], mounted on [/users] by the first [app.js]. *)
Definition users_routes_get : Async Response :=
  try_catch
    (users <- await Prisma.user_findMany ;;
     ret (json 200 (JArr (map user_json users))))
    (fun _ => ret (json 500 (error_json "Error obteniendo usuarios"))).

(** ** [prisma/seed.js] *)

(** [async function main()]: the company, then its administrator. *)
Definition seed_main : Async unit :=
  company <- await Prisma.company_create "TasksCompleted" ;;
  await Prisma.user_create
    (Prisma.mkUserData (Some (JStr "admin@taskscompleted.com"))
                       (Some (JStr "admin123"))
                       (Some (JStr "Admin"))
                       (Some "ADMIN")
                       (Some (Company.id company))) ;;
  ret tt.

(** ** Sample instances and data for concrete runs *)

Module Sample.

(** [Number] on the strings used below: a decimal integer literal reads as
    that integer, a string with no numeric reading as [NaN]. *)
Definition Number (s : string) : JsNumber :=
  match NilZero.int_of_string s with
  | Some d => JsInt (Z.of_int d)
  | None => JsNaN
  end.

(** Stand-ins for the bcrypt and JWT libraries. *)
Definition bcrypt_hash (data : string) (rounds : Z) : string :=
  "$2b$" ++ string_of_Z rounds ++ "$" ++ data.

Definition bcrypt_compare (data hash : string) : bool :=
  String.eqb (bcrypt_hash data 10) hash.

Definition jwt_sign (sub : Z) (role secret expiresIn : string) (now : Z)
    : Outcome string :=
  if string_is_empty secret
  then Rejected (mkErr "Error" None "secretOrPrivateKey must have a value")
  else Resolved ("jwt:" ++ string_of_Z sub ++ ":" ++ role ++ ":" ++ expiresIn
                        ++ ":" ++ secret).

Definition env : Env := mkEnv None None (Some "s3cret") None.

Definition no_secret : Env := mkEnv None None None None.

Definition empty_db : Db := mkDb [] [] [] 1 1 1 1000.

Definition alice : User.t :=
  User.mk 1 "alice@example.com" (bcrypt_hash "wonderland" 10) "Alice" "USER" 900 None.

Definition bob : User.t :=
  User.mk 2 "bob@example.com" (bcrypt_hash "builder" 10) "Bob" "USER" 901 None.

Definition milk : Task.t := Task.mk 1 "buy milk" false 1 950 950.

Definition bricks : Task.t := Task.mk 2 "lay bricks" false 2 960 960.

(** Two users, one task each. *)
Definition db : Db := mkDb [alice; bob] [milk; bricks] [] 3 3 1 1000.

Definition as_alice : ReqUser.t := ReqUser.mk 1 "USER".

Definition as_bob : ReqUser.t := ReqUser.mk 2 "USER".

(** A request carrying only a task id and a JSON body. *)
Definition request (id : string) (body : Body) : Request := mkRequest None id body.

End Sample.

(** The user row a registration creates. *)
Definition registered (bcrypt_hash : string -> Z -> string)
    (e p n : string) (db : Db) : User.t :=
  User.mk (user_seq db) e (bcrypt_hash p 10) n "USER" (now db) None.

Definition add_user (u : User.t) (db : Db) : Db :=
  mkDb (users db ++ [u]) (tasks db) (companies db)
       (user_seq db + 1) (task_seq db) (company_seq db) (now db).

(** ** Further parts of [app.js] *)


(** ** The routes behind the guard *)

(** [router.get("/me", auth, ...)] and the task routes, as the router runs
    them: the guard first, then the handler with the identity it attached. *)
Definition route_get_me (jwt_verify : string -> string -> Z -> option ReqUser.t)
    (env : Env) (req : Request) : Async Response :=
  auth jwt_verify env req (fun user => router_get_me user).

Definition route_get_tasks (jwt_verify : string -> string -> Z -> option ReqUser.t)
    (env : Env) (req : Request) : Async Response :=
  auth jwt_verify env req (fun user => router_get_tasks user).

Definition route_post_tasks (jwt_verify : string -> string -> Z -> option ReqUser.t)
    (env : Env) (req : Request) : Async Response :=
  auth jwt_verify env req (fun user => router_post_tasks user req).

Definition route_patch_task (jwt_verify : string -> string -> Z -> option ReqUser.t)
    (Number : string -> JsNumber) (env : Env) (req : Request) : Async Response :=
  auth jwt_verify env req (fun user => router_patch_task Number user req).

Definition route_delete_task (jwt_verify : string -> string -> Z -> option ReqUser.t)
    (Number : string -> JsNumber) (env : Env) (req : Request) : Async Response :=
  auth jwt_verify env req (fun user => router_delete_task Number user req).

(** Whether a string has a space in it. *)
Fixpoint has_space (s : string) : bool :=
  match s with
  | EmptyString => false
  | String c rest => (Ascii.eqb c " "%char || has_space rest)%bool
  end.

(** A verifier for the tokens of [Sample.jwt_sign], for concrete runs. *)
Definition sample_jwt_verify (token secret : string) (now : Z) : option ReqUser.t :=
  find (fun p => match Sample.jwt_sign (ReqUser.id p) (ReqUser.role p) secret "7d" now with
                 | Resolved t => String.eqb token t
                 | Rejected _ => false
                 end)
       [ReqUser.mk 1 "USER"; ReqUser.mk 2 "USER"; ReqUser.mk 3 "USER"].

(** ** Cross-origin configuration of the final [app.js] *)

(** [s.split(sep)] for a one-character separator. *)
Fixpoint split_on_aux (sep : ascii) (acc s : string) : list string :=
  match s with
  | EmptyString => [acc]
  | String c rest =>
      if Ascii.eqb c sep
      then acc :: split_on_aux sep EmptyString rest
      else split_on_aux sep (acc ++ String c EmptyString) rest
  end.

Definition split_on (sep : ascii) (s : string) : list string :=
  split_on_aux sep EmptyString s.

(** [const DEFAULT_ORIGINS]. *)
Definition DEFAULT_ORIGINS : list string :=
  ["http://localhost:3000"; "http://localhost:5173"].

(** [const ALLOWED_ORIGINS = (process.env.CORS_ORIGIN || "").split(",")
    .map((s) => s.trim()).filter(Boolean)], given the variable. *)
Definition ALLOWED_ORIGINS (CORS_ORIGIN : option string) : list string :=
  filter (fun s => negb (string_is_empty s))
         (map trim (split_on ","%char (or_default CORS_ORIGIN ""))).

(** [new Set(ALLOWED_ORIGINS.length ? ALLOWED_ORIGINS : DEFAULT_ORIGINS)],
    as the list of its members. *)
Definition originAllowlist (CORS_ORIGIN : option string) : list string :=
  if Nat.eqb (List.length (ALLOWED_ORIGINS CORS_ORIGIN)) 0
  then DEFAULT_ORIGINS
  else ALLOWED_ORIGINS CORS_ORIGIN.

(** The [origin] callback handed to [cors]: [cb(null, true)] resolves,
    [cb(new Error(...))] rejects. *)
Definition cors_origin (CORS_ORIGIN : option string) (origin : option string)
    : Outcome bool :=
  match origin with
  | None => Resolved true
  | Some o =>
      if string_is_empty o then Resolved true
      else if existsb (String.eqb o) (originAllowlist CORS_ORIGIN)
           then Resolved true
           else Rejected (mkErr "Error" None ("CORS bloqueado para origin: " ++ o))
  end.

(** Whether a string has a given character in it. *)
Fixpoint has_char (sep : ascii) (s : string) : bool :=
  match s with
  | EmptyString => false
  | String c rest => (Ascii.eqb c sep || has_char sep rest)%bool
  end.

(** A task table whose titles have no white space at either end. *)
Definition titles_trimmed (db : Db) : Prop :=
  Forall (fun t => trim (Task.title t) = Task.title t) (tasks db).

(** ** Invariants of the store *)

(** What the database itself guarantees: primary keys and emails are unique,
    the auto-increment counters are above every id handed out, and every
    task's owner is a user. *)
Record well_formed (db : Db) : Prop := mk_well_formed {
  unique_user_ids : NoDup (map User.id (users db));
  unique_emails : NoDup (map User.email (users db));
  unique_task_ids : NoDup (map Task.id (tasks db));
  user_ids_below_seq : Forall (fun u => User.id u < user_seq db) (users db);
  task_ids_below_seq : Forall (fun t => Task.id t < task_seq db) (tasks db);
  owners_exist :
    Forall (fun t => Prisma.user_by_id (Task.userId t) db <> None) (tasks db)
}.

(** A computation keeps an invariant of the store, however it settles. *)
Definition preserves (P : Db -> Prop) {A} (m : Async A) : Prop :=
  forall db, P db -> P (snd (m db)).

(** A computation that only reads. *)
Definition read_only {A} (m : Async A) : Prop :=
  forall db, snd (m db) = db.

(** The tasks of everyone but [owner]. *)
Definition tasks_of_others (owner : Z) (db : Db) : list Task.t :=
  filter (fun t => negb (Task.userId t =? owner)) (tasks db).

(** A handler answers a request on [db]: it settles with a response whose
    status is one of [codes], and it has written to the store only if the
    status is one of [writes]. *)
Definition answers (m : Async Response) (db : Db) (codes writes : list Z) : Prop :=
  exists r db',
    m db = (Resolved r, db') /\
    In (status r) codes /\
    (db' = db \/ In (status r) writes).

(** The order of [orderBy: { createdAt: "desc" }]. *)
Definition newer_first (a b : Task.t) : Prop := Task.createdAt b <= Task.createdAt a.

(** Running a handler: unfold the monad and the store calls. *)
Ltac run :=
  cbv beta iota zeta delta
    [bind try_catch ret throw
     Prisma.task_findFirst Prisma.task_update Prisma.task_delete
     Prisma.task_create Prisma.task_findMany
     Prisma.user_findUnique_email Prisma.user_findUnique_id
     Prisma.user_findMany Prisma.user_create Prisma.company_create
     Prisma.int_arg Prisma.string_arg].

(** What the final handlers store for a title: nothing when the body has
    none, the trimmed [String(title)] otherwise; [None] when [String(title)]
    throws. *)
Definition trimmed_title (title : option JValue) : option (option string) :=
  match title with
  | None => Some None
  | Some v =>
      match String_ v with
      | Some text => Some (Some (trim text))
      | None => None
      end
  end.

(** An id that is a number but no integer of the id column is refused by
    the store; the handlers answer 500 and write nothing. *)
Definition refused_id (n : JsNumber) : Prop :=
  n = JsOther \/ exists z, n = JsInt z /\ Prisma.Int_fits z = false.


(** * Properties *)

(** ** Coercions on concrete values *)

Example trim_inner_space_kept : trim "  buy milk 	" = "buy milk".
Proof. reflexivity. Qed.

Example trim_white_only : trim "  " = "".
Proof. reflexivity. Qed.

(** U+00A0 and U+FEFF around a title go as well. *)
Example trim_unicode_space :
  trim (String "194" (String "160" ("buy milk" ++ String "239" (String "187" (String "191" "")))))
  = "buy milk".
Proof. reflexivity. Qed.

Example String_of_array :
  String_ (JArr [JNum 1; JNull; JStr "a"; JArr [JNum (-2); JBool true]])
  = Some "1,,a,-2,true".
Proof. reflexivity. Qed.

Example String_of_large_integers :
  String_ (JNum (10 ^ 21)) = Some "1e+21" /\
  String_ (JNum (-125 * 10 ^ 20)) = Some "-1.25e+22" /\
  String_ (JNum (10 ^ 21 - 1000)) = Some "999999999999999999000".
Proof. repeat split. Qed.

Example String_of_object : String_ (JObj [("a", JNum 1)]) = Some "[object Object]".
Proof. reflexivity. Qed.

Example String_of_object_with_toString : String_ (JObj [("toString", JNum 1)]) = None.
Proof. reflexivity. Qed.

Example String_of_array_with_such_object :
  String_ (JArr [JNum 1; JObj [("toString", JNum 1)]]) = None.
Proof. reflexivity. Qed.

Example split_bearer : split_space "Bearer abc" = ["Bearer"; "abc"].
Proof. reflexivity. Qed.

Example split_empty : split_space "" = [""].
Proof. reflexivity. Qed.

Example sample_Number_1 : Sample.Number "1" = JsInt 1.
Proof. reflexivity. Qed.

Example sample_Number_abc : Sample.Number "abc" = JsNaN.
Proof. reflexivity. Qed.

Example unique_error_is_recognised :
  includes "Unique constraint" (String_of_err Prisma.unique_error) = true.
Proof. reflexivity. Qed.

(** ** Trimming *)

(** Induction on strings that may step over one, two or three bytes. *)
Lemma string_ind3 (P : string -> Prop) :
  P "" ->
  (forall c r,
     P r ->
     (forall d r', r = String d r' -> P r') ->
     (forall d e r'', r = String d (String e r'') -> P r'') ->
     P (String c r)) ->
  forall s, P s.
Proof.
  intros H0 Hs.
  assert (G : forall s, P s /\
                        (forall d r', s = String d r' -> P r') /\
                        (forall d e r'', s = String d (String e r'') -> P r'')).
  { induction s as [|c r (IH1 & IH2 & IH3)].
    - split; [exact H0|]. split; intros; discriminate.
    - split; [apply Hs; assumption|]. split.
      + intros d r' E. injection E as _ <-. exact IH1.
      + intros d e r'' E. injection E as _ E'. apply (IH2 _ _ E'). }
  intros s. apply G.
Qed.

Lemma trimStart_idempotent (s : string) : trimStart (trimStart s) = trimStart s.
Proof.
  induction s as [|c r IH1 IH2 IH3] using string_ind3; [reflexivity|].
  cbn [trimStart].
  destruct (is_white_space c) eqn:E1; [exact IH1|].
  destruct r as [|d r']; [cbn [trimStart]; rewrite E1; reflexivity|].
  destruct (white_space_2 c d) eqn:E2; [exact (IH2 _ _ eq_refl)|].
  destruct r' as [|e r'']; [cbn [trimStart]; rewrite E1, E2; reflexivity|].
  destruct (white_space_3 c d e) eqn:E3; [exact (IH3 _ _ _ eq_refl)|].
  cbn [trimStart]. rewrite E1, E2, E3. reflexivity.
Qed.

(** White space in front of a string goes with it. *)
Lemma trimStart_app (a w : string) :
  trimStart a = "" -> trimStart (a ++ w) = trimStart w.
Proof.
  induction a as [|c r IH1 IH2 IH3] using string_ind3; [reflexivity|].
  cbn [trimStart append].
  destruct (is_white_space c) eqn:E1; [exact IH1|].
  destruct r as [|d r']; [discriminate|].
  cbn [append].
  destruct (white_space_2 c d) eqn:E2; [exact (IH2 _ _ eq_refl)|].
  destruct r' as [|e r'']; [discriminate|].
  cbn [append].
  destruct (white_space_3 c d e) eqn:E3; [exact (IH3 _ _ _ eq_refl)|discriminate].
Qed.

(** A string is what [trimEnd] keeps, then white space. *)
Lemma trimEnd_split (s : string) :
  exists w, s = trimEnd s ++ w /\ trimStart w = "".
Proof.
  induction s as [|c r (w & Hw & Hws)].
  - exists "". split; reflexivity.
  - cbn [trimEnd].
    destruct (string_is_empty (trimStart (String c r))) eqn:E.
    + exists (String c r). split; [reflexivity|].
      destruct (trimStart (String c r)); [reflexivity|discriminate].
    + exists w. split; [|exact Hws]. cbn [append]. rewrite <- Hw. reflexivity.
Qed.

Lemma trimEnd_idempotent (s : string) : trimEnd (trimEnd s) = trimEnd s.
Proof.
  induction s as [|c r IH]; [reflexivity|].
  cbn [trimEnd].
  destruct (string_is_empty (trimStart (String c r))) eqn:E; [reflexivity|].
  cbn [trimEnd]. rewrite IH.
  destruct (string_is_empty (trimStart (String c (trimEnd r)))) eqn:E'; [|reflexivity].
  exfalso.
  destruct (trimEnd_split r) as (w & Hw & Hws).
  assert (H : trimStart (String c r) = "").
  { rewrite Hw at 1. change (String c (trimEnd r ++ w)) with (String c (trimEnd r) ++ w).
    rewrite trimStart_app; [exact Hws|].
    destruct (trimStart (String c (trimEnd r))); [reflexivity|discriminate]. }
  rewrite H in E. discriminate.
Qed.

Lemma trimEnd_fixed_tail (c : ascii) (r : string) :
  trimEnd (String c r) = String c r -> trimEnd r = r.
Proof.
  cbn [trimEnd].
  destruct (string_is_empty (trimStart (String c r))); [discriminate|].
  intros H. injection H as H. exact H.
Qed.

(** What [trimEnd] leaves alone, it leaves alone after [trimStart]. *)
Lemma trimEnd_fixed_trimStart (u : string) :
  trimEnd u = u -> trimEnd (trimStart u) = trimStart u.
Proof.
  induction u as [|c r IH1 IH2 IH3] using string_ind3; [reflexivity|].
  intros H. pose proof (trimEnd_fixed_tail _ _ H) as Hr.
  cbn [trimStart].
  destruct (is_white_space c) eqn:E1; [exact (IH1 Hr)|].
  destruct r as [|d r']; [exact H|].
  pose proof (trimEnd_fixed_tail _ _ Hr) as Hr'.
  destruct (white_space_2 c d) eqn:E2; [exact (IH2 _ _ eq_refl Hr')|].
  destruct r' as [|e r'']; [exact H|].
  pose proof (trimEnd_fixed_tail _ _ Hr') as Hr''.
  destruct (white_space_3 c d e) eqn:E3; [exact (IH3 _ _ _ eq_refl Hr'')|exact H].
Qed.

(** Trimming twice is trimming once. *)
Lemma trim_idempotent (s : string) : trim (trim s) = trim s.
Proof.
  unfold trim.
  rewrite (trimEnd_fixed_trimStart (trimEnd s) (trimEnd_idempotent s)).
  apply trimStart_idempotent.
Qed.

(** ** The store *)

Lemma find_both_some {A} (p q : A -> bool) (l : list A) (x : A) :
  find (fun a => p a && q a)%bool l = Some x ->
  exists y, find p l = Some y.
Proof.
  induction l as [|a l IH]; simpl; [discriminate|].
  destruct (p a); simpl; [eauto|]. exact IH.
Qed.

Lemma find_map_stable {A} (p : A -> bool) (f : A -> A) (l : list A) :
  (forall a, p (f a) = p a) ->
  find p (map f l) = option_map f (find p l).
Proof.
  intros Hp. induction l as [|a l IH]; simpl; [reflexivity|].
  rewrite Hp. destruct (p a); [reflexivity|exact IH].
Qed.

Lemma owned_task_exists (i owner : Z) (db : Db) (t : Task.t) :
  Prisma.task_by_id_owner i owner db = Some t ->
  exists t0, Prisma.task_by_id i db = Some t0.
Proof. apply find_both_some. Qed.

Lemma owned_task_fields (i owner : Z) (db : Db) (t : Task.t) :
  Prisma.task_by_id_owner i owner db = Some t ->
  In t (tasks db) /\ Task.id t = i /\ Task.userId t = owner.
Proof.
  unfold Prisma.task_by_id_owner. intros H.
  apply find_some in H. destruct H as [Hin Hp].
  apply andb_true_iff in Hp. destruct Hp as [H1 H2].
  apply Z.eqb_eq in H1, H2. auto.
Qed.

Lemma lookup_after_update (i owner : Z) (title : option string)
    (completed : option bool) (stamp : Z) (db : Db) (t : Task.t) :
  Prisma.task_by_id_owner i owner db = Some t ->
  Prisma.task_by_id_owner i owner
    (Prisma.set_tasks
       (map (fun x => if Task.id x =? i
                      then Prisma.apply_data title completed stamp x else x)
            (tasks db)) db)
  = Some (Prisma.apply_data title completed stamp t).
Proof.
  intros H. unfold Prisma.task_by_id_owner, Prisma.set_tasks; simpl.
  rewrite find_map_stable.
  - fold (Prisma.task_by_id_owner i owner db). rewrite H. simpl.
    apply owned_task_fields in H. destruct H as (_ & Hid & _).
    rewrite Hid, Z.eqb_refl. reflexivity.
  - intros a. cbv beta.
    destruct (Task.id a =? i) eqn:E; simpl; rewrite ?E; reflexivity.
Qed.


Lemma insert_desc_In (t x : Task.t) (l : list Task.t) :
  In x (Prisma.insert_desc t l) <-> x = t \/ In x l.
Proof.
  induction l as [|a l IH]; simpl.
  - intuition.
  - destruct (Task.createdAt a <=? Task.createdAt t); simpl; rewrite ?IH; intuition.
Qed.

Lemma sort_desc_In (x : Task.t) (l : list Task.t) :
  In x (Prisma.sort_desc l) <-> In x l.
Proof.
  induction l as [|a l IH]; simpl; [reflexivity|].
  rewrite insert_desc_In, IH. intuition.
Qed.

(** ** Updating a task *)

Lemma patch_data_run (title completed : option JValue) (db : Db) :
  patch_data title completed db =
  match trimmed_title title with
  | Some t =>
      (Resolved (Prisma.mkTaskData (option_map JStr t) (option_map Boolean completed)), db)
  | None =>
      (Rejected (mkErr "TypeError" None "Cannot convert object to primitive value"), db)
  end.
Proof.
  unfold patch_data, trimmed_title, String_async, String_of.
  destruct title as [v|]; [|destruct completed; reflexivity].
  destruct (String_ v); destruct completed; reflexivity.
Qed.

(** The final [PATCH] handler answers 400 to a body with neither [title]
    nor [completed], whatever the id, and writes nothing. *)
Lemma router_patch_task_nothing_to_update
    (Number : string -> JsNumber) (user : ReqUser.t) (req : Request) (db : Db) :
  prop "title" (req_body req) = None ->
  prop "completed" (req_body req) = None ->
  exists msg,
    router_patch_task Number user req db = (Resolved (json 400 (error_json msg)), db).
Proof.
  intros Ht Hc. unfold router_patch_task. rewrite Ht, Hc.
  destruct (isNaN (Number (params_id req))); simpl; eexists; reflexivity.
Qed.

Lemma task_update_ok (i : Z) (title : option string) (completed : option bool)
    (db : Db) (t0 : Task.t) :
  Prisma.Int_fits i = true ->
  title <> None \/ completed <> None ->
  Prisma.task_by_id i db = Some t0 ->
  Prisma.task_update (JsInt i) (Prisma.mkTaskData (option_map JStr title) completed) db =
  (Resolved (Prisma.apply_data title completed (now db) t0),
   Prisma.set_tasks
     (map (fun x => if Task.id x =? i
                    then Prisma.apply_data title completed (now db) x else x)
          (tasks db)) db).
Proof.
  intros Hfit Hf H. unfold Prisma.task_update, Prisma.int_arg. rewrite Hfit.
  destruct title as [s|]; run; simpl; rewrite H; [reflexivity|].
  destruct completed; [reflexivity|]. destruct Hf; contradiction.
Qed.

(** The final [PATCH] handler on an id that fits the column and a body with
    a field whose title, if any, [String] can print: what the owner lookup
    finds decides between 404 and the update. *)
Lemma router_patch_task_run (Number : string -> JsNumber) (user : ReqUser.t)
    (req : Request) (db : Db) (i : Z) (title : option string) :
  Number (params_id req) = JsInt i ->
  Prisma.Int_fits i = true ->
  (prop "title" (req_body req) <> None \/ prop "completed" (req_body req) <> None) ->
  trimmed_title (prop "title" (req_body req)) = Some title ->
  let completed := option_map Boolean (prop "completed" (req_body req)) in
  router_patch_task Number user req db =
  match Prisma.task_by_id_owner i (ReqUser.id user) db, Prisma.task_by_id i db with
  | None, _ => (Resolved (json 404 (error_json "Tarea no encontrada")), db)
  | Some _, Some t0 =>
      (Resolved (json 200 (task_json (Prisma.apply_data title completed (now db) t0))),
       Prisma.set_tasks
         (map (fun x => if Task.id x =? i
                        then Prisma.apply_data title completed (now db) x else x)
              (tasks db)) db)
  | Some _, None =>
      (Resolved (json 500 (error_detail_json "Error actualizando tarea"
                                             Prisma.not_found_error)), db)
  end.
Proof.
  intros HN Hfit Hfield Htitle completed. unfold router_patch_task.
  rewrite HN. cbn [isNaN]. unfold bind at 1. rewrite patch_data_run, Htitle.
  cbv beta iota. fold completed.
  assert (Hf : title <> None \/ completed <> None).
  { destruct Hfield as [H|H].
    - left. destruct (prop "title" (req_body req)) as [v|]; [|contradiction].
      simpl in Htitle. destruct (String_ v); [|discriminate].
      injection Htitle as <-. discriminate.
    - right. unfold completed.
      destruct (prop "completed" (req_body req)); [discriminate|contradiction]. }
  assert (Hk : Nat.eqb (List.length (Prisma.data_keys
                 (Prisma.mkTaskData (option_map JStr title) completed))) 0 = false).
  { unfold Prisma.data_keys. simpl.
    destruct title; [reflexivity|]. destruct completed; [reflexivity|].
    destruct Hf; contradiction. }
  rewrite Hk.
  unfold try_catch, bind at 1. unfold Prisma.task_findFirst, Prisma.int_arg.
  rewrite Hfit. unfold bind at 1. unfold ret at 1.
  destruct (Prisma.task_by_id_owner i (ReqUser.id user) db) eqn:Hl; [|reflexivity].
  unfold bind at 1.
  destruct (Prisma.task_by_id i db) eqn:H0.
  - rewrite (task_update_ok _ _ _ _ _ Hfit Hf H0). reflexivity.
  - unfold Prisma.task_update, Prisma.int_arg. rewrite Hfit.
    destruct title; run; simpl; rewrite H0; reflexivity.
Qed.

(** The final [DELETE] handler on an id that fits the column. *)
Lemma router_delete_task_run (Number : string -> JsNumber) (user : ReqUser.t)
    (req : Request) (db : Db) (i : Z) :
  Number (params_id req) = JsInt i ->
  Prisma.Int_fits i = true ->
  router_delete_task Number user req db =
  match Prisma.task_by_id_owner i (ReqUser.id user) db, Prisma.task_by_id i db with
  | None, _ => (Resolved (json 404 (error_json "Tarea no encontrada")), db)
  | Some _, Some _ =>
      (Resolved (mkResponse 204 NoBody),
       Prisma.set_tasks (filter (fun x => negb (Task.id x =? i)) (tasks db)) db)
  | Some _, None =>
      (Resolved (json 500 (error_detail_json "Error borrando tarea"
                                             Prisma.not_found_error)), db)
  end.
Proof.
  intros HN Hfit. unfold router_delete_task. rewrite HN. cbn [isNaN].
  unfold Prisma.task_findFirst, Prisma.task_delete, Prisma.int_arg. rewrite Hfit. run.
  destruct (Prisma.task_by_id_owner i (ReqUser.id user) db); [|reflexivity].
  destruct (Prisma.task_by_id i db); reflexivity.
Qed.

(** The earlier [PATCH] handler on an id that fits the column, when [title]
    is left out or is a string and the body names a field. *)
Lemma app_patch_task_run (Number : string -> JsNumber) (user : ReqUser.t)
    (req : Request) (db : Db) (i : Z) (title : option string) :
  Number (params_id req) = JsInt i ->
  Prisma.Int_fits i = true ->
  prop "title" (req_body req) = option_map JStr title ->
  (title <> None \/ prop "completed" (req_body req) <> None) ->
  let completed := option_map Boolean (prop "completed" (req_body req)) in
  app_patch_task Number user req db =
  match Prisma.task_by_id_owner i (ReqUser.id user) db, Prisma.task_by_id i db with
  | None, _ => (Resolved (json 404 (error_json "Tarea no encontrada")), db)
  | Some _, Some t0 =>
      (Resolved (json 200 (task_json (Prisma.apply_data title completed (now db) t0))),
       Prisma.set_tasks
         (map (fun x => if Task.id x =? i
                        then Prisma.apply_data title completed (now db) x else x)
              (tasks db)) db)
  | Some _, None =>
      (Resolved (json 500 (error_detail_json "Error actualizando tarea"
                                             Prisma.not_found_error)), db)
  end.
Proof.
  intros HN Hfit Ht Hfield completed. unfold app_patch_task. rewrite HN, Ht. cbn [isNaN].
  replace (match prop "completed" (req_body req) with
           | Some c => Some (Boolean c) | None => None end) with completed
    by (unfold completed; destruct (prop "completed" (req_body req)); reflexivity).
  assert (Hf : title <> None \/ completed <> None).
  { destruct Hfield as [H|H]; [left; exact H|right]. unfold completed.
    destruct (prop "completed" (req_body req)); [discriminate|contradiction]. }
  unfold try_catch, bind at 1. unfold Prisma.task_findFirst, Prisma.int_arg.
  rewrite Hfit. unfold bind at 1. unfold ret at 1.
  destruct (Prisma.task_by_id_owner i (ReqUser.id user) db) eqn:Hl; [|reflexivity].
  unfold bind at 1.
  destruct (Prisma.task_by_id i db) eqn:H0.
  - rewrite (task_update_ok _ _ _ _ _ Hfit Hf H0). reflexivity.
  - unfold Prisma.task_update, Prisma.int_arg. rewrite Hfit.
    destruct title; run; simpl; rewrite H0; reflexivity.
Qed.

Lemma refused_id_int_arg (n : JsNumber) (db : Db) :
  refused_id n ->
  Prisma.int_arg "id" n db = (Rejected (Prisma.validation_error "id"), db).
Proof.
  intros [->|(z & -> & Hz)]; [reflexivity|].
  unfold Prisma.int_arg. rewrite Hz. reflexivity.
Qed.

Lemma not_NaN_cases (n : JsNumber) :
  n = JsNaN \/ refused_id n \/ exists i, n = JsInt i /\ Prisma.Int_fits i = true.
Proof.
  destruct n as [|z|]; [left; reflexivity| |right; left; left; reflexivity].
  destruct (Prisma.Int_fits z) eqn:E.
  - right. right. exists z. auto.
  - right. left. right. exists z. auto.
Qed.

Lemma refused_id_not_NaN (n : JsNumber) : refused_id n -> isNaN n = false.
Proof. intros [->|(z & -> & _)]; reflexivity. Qed.

Lemma router_patch_task_refused_id (Number : string -> JsNumber) (user : ReqUser.t)
    (req : Request) (db : Db) (title : option string) :
  refused_id (Number (params_id req)) ->
  (prop "title" (req_body req) <> None \/ prop "completed" (req_body req) <> None) ->
  trimmed_title (prop "title" (req_body req)) = Some title ->
  router_patch_task Number user req db =
  (Resolved (json 500 (error_detail_json "Error actualizando tarea"
                                         (Prisma.validation_error "id"))), db).
Proof.
  intros Hid Hfield Htitle. unfold router_patch_task.
  rewrite (refused_id_not_NaN _ Hid). unfold bind at 1.
  rewrite patch_data_run, Htitle. cbv beta iota.
  assert (Hk : Nat.eqb (List.length (Prisma.data_keys
                 (Prisma.mkTaskData (option_map JStr title)
                    (option_map Boolean (prop "completed" (req_body req)))))) 0 = false).
  { unfold Prisma.data_keys. simpl.
    destruct title; [reflexivity|].
    destruct (prop "completed" (req_body req)); [reflexivity|].
    destruct Hfield as [H|H]; [|contradiction].
    destruct (prop "title" (req_body req)) as [v|]; [|contradiction].
    simpl in Htitle. destruct (String_ v); discriminate. }
  rewrite Hk. unfold try_catch, bind at 1. unfold Prisma.task_findFirst.
  unfold bind at 1. rewrite (refused_id_int_arg _ db Hid). reflexivity.
Qed.

Lemma router_delete_task_refused_id (Number : string -> JsNumber) (user : ReqUser.t)
    (req : Request) (db : Db) :
  refused_id (Number (params_id req)) ->
  router_delete_task Number user req db =
  (Resolved (json 500 (error_detail_json "Error borrando tarea"
                                         (Prisma.validation_error "id"))), db).
Proof.
  intros Hid. unfold router_delete_task.
  rewrite (refused_id_not_NaN _ Hid).
  unfold try_catch, bind at 1. unfold Prisma.task_findFirst.
  unfold bind at 1. rewrite (refused_id_int_arg _ db Hid). reflexivity.
Qed.

(** The final [PATCH] handler for every id and body: a 400, 404 or 500
    with nothing written; a rejection with nothing written, when
    [String(title)] throws; or the update of the caller's task. *)
Lemma router_patch_task_cases (Number : string -> JsNumber) (user : ReqUser.t)
    (req : Request) (db : Db) :
  (exists r, router_patch_task Number user req db = (Resolved r, db) /\
             (status r = 400 \/ status r = 404 \/ status r = 500)) \/
  (exists e, router_patch_task Number user req db = (Rejected e, db) /\
             trimmed_title (prop "title" (req_body req)) = None) \/
  (exists i t t0 title,
     Number (params_id req) = JsInt i /\
     Prisma.Int_fits i = true /\
     Prisma.task_by_id_owner i (ReqUser.id user) db = Some t /\
     Prisma.task_by_id i db = Some t0 /\
     trimmed_title (prop "title" (req_body req)) = Some title /\
     let completed := option_map Boolean (prop "completed" (req_body req)) in
     router_patch_task Number user req db =
     (Resolved (json 200 (task_json (Prisma.apply_data title completed (now db) t0))),
      Prisma.set_tasks
        (map (fun x => if Task.id x =? i
                       then Prisma.apply_data title completed (now db) x else x)
             (tasks db)) db)).
Proof.
  destruct (not_NaN_cases (Number (params_id req))) as [HN|[Hid|(i & HN & Hfit)]].
  - left. unfold router_patch_task. rewrite HN. eexists. split; [reflexivity|auto].
  - destruct (trimmed_title (prop "title" (req_body req))) as [title|] eqn:Ht.
    + left.
      destruct (prop "title" (req_body req)) eqn:Et.
      2: destruct (prop "completed" (req_body req)) eqn:Ec.
      3: { destruct (router_patch_task_nothing_to_update Number user req db Et Ec)
             as [msg ->]. eexists. split; [reflexivity|auto]. }
      all: rewrite (router_patch_task_refused_id Number user req db title Hid);
        [eexists; split; [reflexivity|simpl; auto]
        |rewrite ?Et, ?Ec; first [left; discriminate|right; discriminate]
        |rewrite ?Et; exact Ht].
    + right. left. unfold router_patch_task.
      rewrite (refused_id_not_NaN _ Hid). unfold bind at 1.
      rewrite patch_data_run, Ht. eexists. split; reflexivity.
  - destruct (trimmed_title (prop "title" (req_body req))) as [title|] eqn:Ht.
    + destruct (prop "title" (req_body req)) eqn:Et.
      2: destruct (prop "completed" (req_body req)) eqn:Ec.
      3: { left.
           destruct (router_patch_task_nothing_to_update Number user req db Et Ec)
             as [msg ->]. eexists. split; [reflexivity|auto]. }
      all: assert (Hf : prop "title" (req_body req) <> None \/
                        prop "completed" (req_body req) <> None)
             by (rewrite ?Et, ?Ec; first [left; discriminate|right; discriminate]).
      all: rewrite <- ?Et in Ht.
      all: pose proof (router_patch_task_run Number user req db i title HN Hfit Hf Ht)
             as Hrun; cbv zeta in Hrun.
      all: destruct (Prisma.task_by_id_owner i (ReqUser.id user) db) eqn:Hl;
             [|left; eexists; split; [exact Hrun|simpl; auto]].
      all: destruct (owned_task_exists _ _ _ _ Hl) as [t0 H0]; rewrite H0 in Hrun.
      all: right; right; exists i, t, t0, title; rewrite <- ?Ec; auto 10.
    + right. left. unfold router_patch_task. rewrite HN. cbn [isNaN].
      unfold bind at 1. rewrite patch_data_run, Ht. eexists. split; reflexivity.
Qed.

(** The final [DELETE] handler for every id. *)
Lemma router_delete_task_cases (Number : string -> JsNumber) (user : ReqUser.t)
    (req : Request) (db : Db) :
  (exists r, router_delete_task Number user req db = (Resolved r, db) /\
             (status r = 400 \/ status r = 404 \/ status r = 500)) \/
  (exists i t,
     Number (params_id req) = JsInt i /\
     Prisma.Int_fits i = true /\
     Prisma.task_by_id_owner i (ReqUser.id user) db = Some t /\
     router_delete_task Number user req db =
     (Resolved (mkResponse 204 NoBody),
      Prisma.set_tasks (filter (fun x => negb (Task.id x =? i)) (tasks db)) db)).
Proof.
  destruct (not_NaN_cases (Number (params_id req))) as [HN|[Hid|(i & HN & Hfit)]].
  - left. unfold router_delete_task. rewrite HN. eexists. split; [reflexivity|auto].
  - left. rewrite (router_delete_task_refused_id _ _ _ _ Hid).
    eexists. split; [reflexivity|simpl; auto].
  - pose proof (router_delete_task_run Number user req db _ HN Hfit) as Hrun.
    destruct (Prisma.task_by_id_owner i (ReqUser.id user) db) eqn:Hl;
      [|left; eexists; split; [exact Hrun|simpl; auto]].
    destruct (owned_task_exists _ _ _ _ Hl) as [t0 H0]. rewrite H0 in Hrun.
    right. exists i, t. auto.
Qed.

(** The earlier [PATCH] handler for every id and body: a response with
    nothing written, or the update of the caller's task. *)
Lemma app_patch_task_cases (Number : string -> JsNumber) (user : ReqUser.t)
    (req : Request) (db : Db) :
  (exists r, app_patch_task Number user req db = (Resolved r, db)) \/
  (exists i t t0 title,
     Number (params_id req) = JsInt i /\
     Prisma.Int_fits i = true /\
     Prisma.task_by_id_owner i (ReqUser.id user) db = Some t /\
     Prisma.task_by_id i db = Some t0 /\
     prop "title" (req_body req) = option_map JStr title /\
     let completed := option_map Boolean (prop "completed" (req_body req)) in
     app_patch_task Number user req db =
     (Resolved (json 200 (task_json (Prisma.apply_data title completed (now db) t0))),
      Prisma.set_tasks
        (map (fun x => if Task.id x =? i
                       then Prisma.apply_data title completed (now db) x else x)
             (tasks db)) db)).
Proof.
  destruct (not_NaN_cases (Number (params_id req))) as [HN|[Hid|(i & HN & Hfit)]].
  - left. unfold app_patch_task. rewrite HN. eexists. reflexivity.
  - left. unfold app_patch_task. rewrite (refused_id_not_NaN _ Hid).
    unfold try_catch, bind at 1. unfold Prisma.task_findFirst.
    unfold bind at 1. rewrite (refused_id_int_arg _ db Hid). eexists. reflexivity.
  - assert (Hgen : forall title : option string,
               prop "title" (req_body req) = option_map JStr title ->
               (title <> None \/ prop "completed" (req_body req) <> None) ->
               _)
      by (intros title Ht Hf;
          exact (app_patch_task_run Number user req db i title HN Hfit Ht Hf)).
    cbv zeta in Hgen.
    destruct (Prisma.task_by_id_owner i (ReqUser.id user) db) eqn:Hl.
    2: { left. unfold app_patch_task. rewrite HN. cbn [isNaN].
         unfold try_catch, bind at 1. unfold Prisma.task_findFirst, Prisma.int_arg.
         rewrite Hfit. unfold bind at 1. unfold ret at 1. rewrite Hl.
         eexists. reflexivity. }
    destruct (owned_task_exists _ _ _ _ Hl) as [t0 H0]. rewrite H0 in Hgen.
    destruct (prop "title" (req_body req)) as [v|] eqn:Et.
    + destruct v; try (left; unfold app_patch_task; rewrite HN, Et; cbn [isNaN];
        unfold try_catch, bind at 1; unfold Prisma.task_findFirst, Prisma.int_arg;
        rewrite Hfit; unfold bind at 1; unfold ret at 1; rewrite Hl;
        unfold Prisma.task_update, Prisma.int_arg; rewrite Hfit;
        eexists; reflexivity).
      right. exists i, t, t0, (Some s). repeat split; auto.
      apply (Hgen (Some s) eq_refl). left. discriminate.
    + destruct (prop "completed" (req_body req)) as [c|] eqn:Ec.
      * right. exists i, t, t0, None. repeat split; auto.
        apply (Hgen None eq_refl). right. discriminate.
      * left. unfold app_patch_task. rewrite HN, Et, Ec. cbn [isNaN].
        unfold try_catch, bind at 1. unfold Prisma.task_findFirst, Prisma.int_arg.
        rewrite Hfit. unfold bind at 1. unfold ret at 1. rewrite Hl.
        unfold Prisma.task_update, Prisma.int_arg. rewrite Hfit. run. simpl.
        rewrite H0. eexists. reflexivity.
Qed.




Lemma written_rows_completed (i : Z) (title : option string) (c : bool)
    (stamp : Z) (l : list Task.t) (x : Task.t) :
  In x (map (fun y => if Task.id y =? i
                      then Prisma.apply_data title (Some c) stamp y else y) l) ->
  In x l \/ Task.completed x = c.
Proof.
  intros H. apply in_map_iff in H. destruct H as (y & <- & Hy).
  destruct (Task.id y =? i); [right; reflexivity|left; exact Hy].
Qed.

(** C10: when [completed] is supplied, the id is an integer of the id
    column and the caller owns the task, the [PATCH] handlers answer 200
    and store [Boolean(completed)], whatever the value is (the final
    handler for any title [String] can print, the earlier one for a title
    that is left out or a string); so ["false"] is stored as true, and [0],
    [null] and [""] as false.  And for every request that supplies
    [completed], whatever else it holds, a row the handlers write carries
    [Boolean(completed)]. *)
Theorem patch_completed_is_Boolean_coercion
    (Number : string -> JsNumber) (user : ReqUser.t) (req : Request)
    (db : Db) (c : JValue) :
  prop "completed" (req_body req) = Some c ->
  (forall i t,
     Number (params_id req) = JsInt i ->
     Prisma.Int_fits i = true ->
     Prisma.task_by_id_owner i (ReqUser.id user) db = Some t ->
     (trimmed_title (prop "title" (req_body req)) <> None ->
      exists t' db',
        router_patch_task Number user req db = (Resolved (json 200 (task_json t')), db') /\
        Task.completed t' = Boolean c /\
        option_map Task.completed (Prisma.task_by_id_owner i (ReqUser.id user) db')
          = Some (Boolean c)) /\
     (forall title : option string,
        prop "title" (req_body req) = option_map JStr title ->
        exists t' db',
          app_patch_task Number user req db = (Resolved (json 200 (task_json t')), db') /\
          Task.completed t' = Boolean c /\
          option_map Task.completed (Prisma.task_by_id_owner i (ReqUser.id user) db')
            = Some (Boolean c))) /\
  (forall x,
     In x (tasks (snd (router_patch_task Number user req db))) ->
     In x (tasks db) \/ Task.completed x = Boolean c) /\
  (forall x,
     In x (tasks (snd (app_patch_task Number user req db))) ->
     In x (tasks db) \/ Task.completed x = Boolean c) /\
  Boolean (JStr "false") = true /\
  Boolean (JNum 0) = false /\
  Boolean JNull = false /\
  Boolean (JStr "") = false.
Proof.
  intros Hc.
  split; [|split; [|split; [|repeat split]]].
  - intros i t HN Hfit Hl.
    destruct (owned_task_exists _ _ _ _ Hl) as [t0 H0].
    split.
    + intros Hprint.
      destruct (trimmed_title (prop "title" (req_body req))) as [title|] eqn:Ht;
        [|contradiction].
      assert (Hnamed : prop "title" (req_body req) <> None \/
                       prop "completed" (req_body req) <> None)
        by (right; rewrite Hc; discriminate).
      rewrite (router_patch_task_run _ _ _ db _ _ HN Hfit Hnamed Ht).
      rewrite Hl, H0, Hc. do 2 eexists. split; [reflexivity|]. split; [reflexivity|].
      rewrite (lookup_after_update _ _ _ _ _ _ _ Hl). reflexivity.
    + intros title Ht.
      rewrite (app_patch_task_run _ _ _ db _ _ HN Hfit Ht)
        by (right; rewrite Hc; discriminate).
      rewrite Hl, H0, Hc. do 2 eexists. split; [reflexivity|]. split; [reflexivity|].
      rewrite (lookup_after_update _ _ _ _ _ _ _ Hl). reflexivity.
  - intros x.
    destruct (router_patch_task_cases Number user req db)
      as [(r & -> & _)|[(e & -> & _)|(i & t & t0 & title & _ & _ & _ & _ & _ & ->)]];
      simpl; auto.
    rewrite Hc. simpl. apply written_rows_completed.
  - intros x.
    destruct (app_patch_task_cases Number user req db)
      as [(r & ->)|(i & t & t0 & title & _ & _ & _ & _ & _ & ->)];
      simpl; auto.
    rewrite Hc. simpl. apply written_rows_completed.
Qed.

Lemma patch_completed_is_Boolean_coercion_witness :
  exists t' db',
    router_patch_task Sample.Number Sample.as_alice
      (Sample.request "1" [("completed", JStr "false")]) Sample.db
    = (Resolved (json 200 (task_json t')), db') /\
    Task.completed t' = true /\
    option_map Task.completed (Prisma.task_by_id_owner 1 1 db') = Some true.
Proof.
  refine (proj1 (proj1 (patch_completed_is_Boolean_coercion
                  Sample.Number Sample.as_alice
                  (Sample.request "1" [("completed", JStr "false")])
                  Sample.db (JStr "false") eq_refl)
                1 Sample.milk eq_refl eq_refl eq_refl) _).
  discriminate.
Defined.

(** C9: the earlier [PATCH] handler has no check for an empty update.  Alice
    patches her own task with an empty body: the earlier handler answers 200
    with the task as it is, where the final handler answers 400. *)
Theorem earlier_patch_without_fields_is_200 :
  app_patch_task Sample.Number Sample.as_alice (Sample.request "1" []) Sample.db =
  (Resolved (json 200 (task_json Sample.milk)), Sample.db) /\
  router_patch_task Sample.Number Sample.as_alice (Sample.request "1" []) Sample.db =
  (Resolved (json 400 (error_json "Nada que actualizar")), Sample.db).
Proof. split; reflexivity. Qed.

(** ** Creating a task *)

(** [POST /tasks] in full: a falsy title is refused; a title [String]
    cannot print is a 500; otherwise the trimmed [String(title)] is stored
    for the caller, provided the caller's row exists. *)
Lemma router_post_tasks_run (user : ReqUser.t) (req : Request) (db : Db) :
  router_post_tasks user req db =
  if negb (truthy (prop "title" (req_body req))) then
    (Resolved (json 400 (error_json "title es obligatorio")), db)
  else
    match String_of (prop "title" (req_body req)) with
    | None =>
        (Resolved (json 500 (error_detail_json "Error creando tarea"
           (mkErr "TypeError" None "Cannot convert object to primitive value"))), db)
    | Some text =>
        match Prisma.user_by_id (ReqUser.id user) db with
        | None =>
            (Resolved (json 500 (error_detail_json "Error creando tarea"
                                   (Prisma.foreign_key_error "userId"))), db)
        | Some _ =>
            let t := Task.mk (task_seq db) (trim text)
                             false (ReqUser.id user) (now db) (now db) in
            (Resolved (json 201 (task_json t)),
             mkDb (users db) (tasks db ++ [t]) (companies db)
                  (user_seq db) (task_seq db + 1) (company_seq db) (now db))
        end
    end.
Proof.
  unfold router_post_tasks, String_async.
  destruct (negb (truthy (prop "title" (req_body req)))); [reflexivity|].
  destruct (String_of (prop "title" (req_body req))); [|reflexivity].
  run. destruct (Prisma.user_by_id (ReqUser.id user) db); reflexivity.
Qed.

(** C5: [POST /tasks] reads nothing of the body but [title], so two bodies
    with the same title (whatever owner field they carry) give the same
    response and the same store; a truthy title that [String] can print,
    from an existing caller, creates one task, owned by the caller; a title
    [String] cannot print creates nothing (500); and no request adds a task
    owned by anyone else. *)
Theorem created_task_is_owned_by_caller
    (user : ReqUser.t) (req req' : Request) (db : Db) :
  (prop "title" (req_body req) = prop "title" (req_body req') ->
   router_post_tasks user req db = router_post_tasks user req' db) /\
  (truthy (prop "title" (req_body req)) = true ->
   String_of (prop "title" (req_body req)) <> None ->
   Prisma.user_by_id (ReqUser.id user) db <> None ->
   exists t db',
     router_post_tasks user req db = (Resolved (json 201 (task_json t)), db') /\
     Task.userId t = ReqUser.id user /\
     tasks db' = (tasks db ++ [t])%list) /\
  (truthy (prop "title" (req_body req)) = true ->
   String_of (prop "title" (req_body req)) = None ->
   exists r, router_post_tasks user req db = (Resolved r, db) /\ status r = 500) /\
  (forall t,
     In t (tasks (snd (router_post_tasks user req db))) ->
     In t (tasks db) \/ Task.userId t = ReqUser.id user).
Proof.
  split; [|split; [|split]].
  - intros H. rewrite !router_post_tasks_run, H. reflexivity.
  - intros Ht Hs Hu. rewrite router_post_tasks_run, Ht. simpl.
    destruct (String_of (prop "title" (req_body req))); [|contradiction].
    destruct (Prisma.user_by_id (ReqUser.id user) db); [|contradiction].
    do 2 eexists. split; [reflexivity|]. split; reflexivity.
  - intros Ht Hs. rewrite router_post_tasks_run, Ht, Hs. simpl.
    eexists. split; reflexivity.
  - intros t. rewrite router_post_tasks_run.
    destruct (negb (truthy (prop "title" (req_body req)))); simpl; [auto|].
    destruct (String_of (prop "title" (req_body req))); simpl; [|auto].
    destruct (Prisma.user_by_id (ReqUser.id user) db); simpl; [|auto].
    rewrite in_app_iff. simpl. intros [H|[H|[]]]; [auto|].
    right. subst t. reflexivity.
Qed.

Lemma created_task_is_owned_by_caller_witness :
  router_post_tasks Sample.as_alice
    (Sample.request "" [("title", JStr "buy milk"); ("userId", JNum 2)]) Sample.db =
  router_post_tasks Sample.as_alice
    (Sample.request "" [("title", JStr "buy milk")]) Sample.db /\
  exists t db',
    router_post_tasks Sample.as_alice
      (Sample.request "" [("title", JStr "buy milk"); ("userId", JNum 2)]) Sample.db
    = (Resolved (json 201 (task_json t)), db') /\
    Task.userId t = 1 /\
    tasks db' = (tasks Sample.db ++ [t])%list.
Proof.
  pose proof (created_task_is_owned_by_caller Sample.as_alice
                (Sample.request "" [("title", JStr "buy milk"); ("userId", JNum 2)])
                (Sample.request "" [("title", JStr "buy milk")]) Sample.db) as H.
  destruct H as [H1 [H2 _]]. split.
  - exact (H1 eq_refl).
  - apply H2; [reflexivity|discriminate|discriminate].
Defined.

(** C4: the title is trimmed before it is stored, but nothing looks at it
    after the trim.  A title of two spaces passes the [!title] test of
    [POST /tasks] and is stored as the empty string with a 201; the same
    title in a [PATCH] of one's own task is stored as the empty string with
    a 200. *)
Theorem blank_title_is_stored_empty :
  router_post_tasks Sample.as_alice (Sample.request "" [("title", JStr "  ")]) Sample.db =
  (Resolved (json 201 (task_json (Task.mk 3 "" false 1 1000 1000))),
   mkDb [Sample.alice; Sample.bob]
        [Sample.milk; Sample.bricks; Task.mk 3 "" false 1 1000 1000] [] 3 4 1 1000) /\
  router_patch_task Sample.Number Sample.as_alice
    (Sample.request "1" [("title", JStr "  ")]) Sample.db =
  (Resolved (json 200 (task_json (Task.mk 1 "" false 1 950 1000))),
   Prisma.set_tasks [Task.mk 1 "" false 1 950 1000; Sample.bricks] Sample.db).
Proof. split; reflexivity. Qed.

(** ** Registration and login *)

Lemma truthy_string (s : string) :
  truthy (Some (JStr s)) = true <-> s <> "".
Proof.
  destruct s; simpl; split; intros H;
    try discriminate; try reflexivity.
  exfalso. apply H. reflexivity.
Qed.

(** With string passwords, a login for an email no user has and a login
    with a wrong password for an existing user get the same response, 401
    with [{ error: "Credenciales inválidas" }], and neither writes. *)
Lemma login_failures_alike_on_strings
    (bcrypt_compare : string -> string -> bool)
    (jwt_sign : Z -> string -> string -> string -> Z -> Outcome string) (env : Env)
    (req1 req2 : Request) (db : Db) (e1 e2 p2 : string) (u : User.t) :
  prop "email" (req_body req1) = Some (JStr e1) ->
  e1 <> "" ->
  truthy (prop "password" (req_body req1)) = true ->
  Prisma.user_by_email e1 db = None ->
  prop "email" (req_body req2) = Some (JStr e2) ->
  e2 <> "" ->
  prop "password" (req_body req2) = Some (JStr p2) ->
  p2 <> "" ->
  Prisma.user_by_email e2 db = Some u ->
  bcrypt_compare p2 (User.password u) = false ->
  router_post_auth_login bcrypt_compare jwt_sign env req1 db =
    (Resolved (json 401 (error_json "Credenciales inválidas")), db) /\
  router_post_auth_login bcrypt_compare jwt_sign env req2 db =
    (Resolved (json 401 (error_json "Credenciales inválidas")), db).
Proof.
  intros He1 Hn1 Hp1 Hu1 He2 Hn2 Hp2 Hnp2 Hu2 Hcmp.
  apply truthy_string in Hn1, Hn2, Hnp2.
  unfold router_post_auth_login. split.
  - rewrite He1, Hn1, Hp1. simpl. run. rewrite Hu1. reflexivity.
  - rewrite He2, Hp2, Hn2, Hnp2. simpl. run. rewrite Hu2.
    unfold bcrypt_compare_async. run. rewrite Hcmp. reflexivity.
Qed.

(** C6: a password that is present but not a string tells a registered
    email from an unknown one.  With [password: 123], the login for
    [carol@example.com], whom the store does not know, is answered 401
    "Credenciales inválidas"; the login for [alice@example.com], who is
    registered, reaches [bcrypt.compare], which rejects data that is not a
    string, and is answered 500 "Error en login"; whatever bcrypt and the
    token library compute. *)
Theorem login_tells_registered_email_on_non_string_password
    (bcrypt_compare : string -> string -> bool)
    (jwt_sign : Z -> string -> string -> string -> Z -> Outcome string) (env : Env) :
  router_post_auth_login bcrypt_compare jwt_sign env
    (Sample.request "" [("email", JStr "carol@example.com"); ("password", JNum 123)])
    Sample.db =
    (Resolved (json 401 (error_json "Credenciales inválidas")), Sample.db) /\
  exists detail,
    router_post_auth_login bcrypt_compare jwt_sign env
      (Sample.request "" [("email", JStr "alice@example.com"); ("password", JNum 123)])
      Sample.db =
    (Resolved (json 500 (JObj [("error", JStr "Error en login");
                               ("detail", JStr detail)])), Sample.db).
Proof. split; [reflexivity|]. eexists. reflexivity. Qed.

(** C7 (as amended): a registration with a falsy [email], [password] or
    [name] is answered 400; one whose email a user already has is answered
    409; in both cases the store is left as it was.  Otherwise, when the
    three are strings and [jwt.sign] returns a token, the user is stored
    with the bcrypt hash of the password and the answer is 201 with the
    selected user fields (no [password] among them) and that token, and
    when [jwt.sign] throws, the answer is 500 although the user has been
    stored; when one of the three is not a string, bcrypt or the store
    rejects it and the answer is 500 with nothing stored. *)
Theorem register_outcomes
    (bcrypt_hash : string -> Z -> string)
    (jwt_sign : Z -> string -> string -> string -> Z -> Outcome string) (env : Env)
    (req : Request) (db : Db) :
  let email := prop "email" (req_body req) in
  let password := prop "password" (req_body req) in
  let name := prop "name" (req_body req) in
  let register := router_post_auth_register bcrypt_hash jwt_sign env req db in
  let not_a_string (v : option JValue) := forall s, v <> Some (JStr s) in
  let failed := exists r, register = (Resolved r, db) /\ status r = 500 in
  ((truthy email && truthy password && truthy name)%bool = false ->
   register =
   (Resolved (json 400 (error_json "email, password y name son obligatorios")), db)) /\
  (forall e u,
     email = Some (JStr e) -> e <> "" ->
     truthy password = true -> truthy name = true ->
     Prisma.user_by_email e db = Some u ->
     register = (Resolved (json 409 (error_json "Ese email ya existe")), db)) /\
  (forall e p n token,
     email = Some (JStr e) -> e <> "" ->
     password = Some (JStr p) -> p <> "" ->
     name = Some (JStr n) -> n <> "" ->
     Prisma.user_by_email e db = None ->
     let u := registered bcrypt_hash e p n db in
     jwt_sign (User.id u) (User.role u) (JWT_SECRET env) (JWT_EXPIRES_IN env) (now db)
       = Resolved token ->
     register =
     (Resolved (json 201 (JObj [("user", select_user u); ("token", JStr token)])),
      add_user u db) /\
     User.password u = bcrypt_hash p 10 /\
     Object_keys (select_user u) = ["id"; "email"; "name"; "role"; "createdAt"]) /\
  (forall e p n err,
     email = Some (JStr e) -> e <> "" ->
     password = Some (JStr p) -> p <> "" ->
     name = Some (JStr n) -> n <> "" ->
     Prisma.user_by_email e db = None ->
     let u := registered bcrypt_hash e p n db in
     jwt_sign (User.id u) (User.role u) (JWT_SECRET env) (JWT_EXPIRES_IN env) (now db)
       = Rejected err ->
     register =
     (Resolved (json 500 (error_detail_json "Error en register" err)), add_user u db)) /\
  ((truthy email && truthy password && truthy name)%bool = true ->
   not_a_string email -> failed) /\
  (forall e,
     (truthy email && truthy password && truthy name)%bool = true ->
     email = Some (JStr e) ->
     Prisma.user_by_email e db = None ->
     not_a_string password \/ not_a_string name -> failed).
Proof.
  intros email password name register not_a_string failed.
  unfold failed, register, router_post_auth_register, sign_token.
  fold email password name.
  split; [|split; [|split; [|split; [|split]]]].
  - intros H. destruct (truthy email), (truthy password), (truthy name);
      try discriminate; reflexivity.
  - intros e u He Hne Hp Hn Hu. apply truthy_string in Hne. rewrite <- He in Hne.
    rewrite Hne, Hp, Hn, He. simpl. run. rewrite Hu. reflexivity.
  - intros e p n token He Hne Hp Hnp Hn Hnn Hu Hsign.
    apply truthy_string in Hne, Hnp, Hnn.
    rewrite He, Hp, Hn, Hne, Hnp, Hnn. simpl. unfold bcrypt_hash_async. run.
    rewrite Hu. simpl. rewrite Hu. simpl. simpl in Hsign. rewrite Hsign.
    repeat split.
  - intros e p n err He Hne Hp Hnp Hn Hnn Hu Hsign.
    apply truthy_string in Hne, Hnp, Hnn.
    rewrite He, Hp, Hn, Hne, Hnp, Hnn. simpl. unfold bcrypt_hash_async. run.
    rewrite Hu. simpl. rewrite Hu. simpl. simpl in Hsign. rewrite Hsign.
    reflexivity.
  - intros Ht Hemail.
    apply andb_true_iff in Ht. destruct Ht as [Ht Hn].
    apply andb_true_iff in Ht. destruct Ht as [He Hp].
    rewrite He, Hp, Hn. simpl. run.
    destruct email as [[]|]; try (eexists; split; reflexivity).
    exfalso. apply (Hemail s). reflexivity.
  - intros e Ht He Hu Hns.
    apply andb_true_iff in Ht. destruct Ht as [Ht Hn].
    apply andb_true_iff in Ht. destruct Ht as [Hte Hp].
    rewrite Hte, Hp, Hn, He. simpl. unfold bcrypt_hash_async. run. rewrite Hu.
    destruct password as [[]|]; try (eexists; split; reflexivity).
    destruct name as [[]|]; simpl; try (eexists; split; reflexivity).
    exfalso. destruct Hns as [H|H]; [apply (H s)|apply (H s0)]; reflexivity.
Qed.

Lemma register_outcomes_witness :
  router_post_auth_register Sample.bcrypt_hash Sample.jwt_sign Sample.env
    (Sample.request "" [("email", JStr "carol@example.com");
                        ("password", JStr "hunter2");
                        ("name", JStr "Carol")]) Sample.db =
  (Resolved (json 201
     (JObj [("user", select_user (User.mk 3 "carol@example.com" "$2b$10$hunter2"
                                          "Carol" "USER" 1000 None));
            ("token", JStr "jwt:3:USER:7d:s3cret")])),
   add_user (User.mk 3 "carol@example.com" "$2b$10$hunter2" "Carol" "USER" 1000 None)
            Sample.db).
Proof.
  refine (proj1 (proj1 (proj2 (proj2 (register_outcomes
            Sample.bcrypt_hash Sample.jwt_sign Sample.env
            (Sample.request "" [("email", JStr "carol@example.com");
                                ("password", JStr "hunter2");
                                ("name", JStr "Carol")]) Sample.db)))
          "carol@example.com" "hunter2" "Carol" "jwt:3:USER:7d:s3cret"
          eq_refl _ eq_refl _ eq_refl _ eq_refl eq_refl));
    discriminate.
Defined.

(** C7 (as stated) fails: a registration with a new email, a name and the
    password 123, none of them missing or empty, is answered 500, not 201,
    and nothing is stored. *)
Lemma register_with_numeric_password_is_500 :
  let req := Sample.request "" [("email", JStr "dave@example.com");
                                ("password", JNum 123);
                                ("name", JStr "Dave")] in
  (truthy (prop "email" (req_body req)) && truthy (prop "password" (req_body req))
   && truthy (prop "name" (req_body req)))%bool = true /\
  Prisma.user_by_email "dave@example.com" Sample.db = None /\
  exists detail,
    router_post_auth_register Sample.bcrypt_hash Sample.jwt_sign Sample.env req Sample.db =
    (Resolved (json 500 (JObj [("error", JStr "Error en register");
                               ("detail", JStr detail)])), Sample.db) /\
    status (json 500 (JObj [("error", JStr "Error en register");
                            ("detail", JStr detail)])) <> 201.
Proof.
  repeat split. eexists. split; [reflexivity|discriminate].
Qed.
(** ** What the user routes return *)

Lemma select_user_keys (u : User.t) :
  Object_keys (select_user u) = ["id"; "email"; "name"; "role"; "createdAt"].
Proof. reflexivity. Qed.

(** [GET /users] of the final router returns the selected fields of every
    user and nothing else. *)
Lemma router_get_users_selects (db : Db) :
  router_get_users db = (Resolved (json 200 (JArr (map select_user (users db)))), db).
Proof. reflexivity. Qed.

(** [GET /me] returns the selected fields of the caller's row, or [null]. *)
Lemma router_get_me_selects (user : ReqUser.t) (db : Db) :
  router_get_me user db =
  (Resolved (json 200 (match Prisma.user_by_id (ReqUser.id user) db with
                       | Some u => select_user u
                       | None => JNull
                       end)), db).
Proof. reflexivity. Qed.

(** A successful login returns the selected fields and the token that
    [jwt.sign] made. *)
Lemma router_post_auth_login_ok
    (bcrypt_compare : string -> string -> bool)
    (jwt_sign : Z -> string -> string -> string -> Z -> Outcome string) (env : Env)
    (req : Request) (db : Db) (e p token : string) (u : User.t) :
  prop "email" (req_body req) = Some (JStr e) ->
  e <> "" ->
  prop "password" (req_body req) = Some (JStr p) ->
  p <> "" ->
  Prisma.user_by_email e db = Some u ->
  bcrypt_compare p (User.password u) = true ->
  jwt_sign (User.id u) (User.role u) (JWT_SECRET env) (JWT_EXPIRES_IN env) (now db)
    = Resolved token ->
  router_post_auth_login bcrypt_compare jwt_sign env req db =
  (Resolved (json 200 (JObj [("user", select_user u); ("token", JStr token)])), db).
Proof.
  intros He Hne Hp Hnp Hu Hcmp Hsign. apply truthy_string in Hne, Hnp.
  unfold router_post_auth_login, sign_token. rewrite He, Hp, Hne, Hnp. simpl. run.
  rewrite Hu. unfold bcrypt_compare_async. run. rewrite Hcmp. simpl.
  rewrite Hsign. reflexivity.
Qed.

(** C2: the router of [routes/users.routes.js] queries the users without a
    [select] and sends the rows whole, so every returned object carries the
    [password] column; on the sample store the two stored hashes are in the
    body. *)
Theorem users_route_returns_password_column :
  (forall db,
     users_routes_get db =
     (Resolved (json 200 (JArr (map user_json (users db)))), db)) /\
  (forall u,
     Object_keys (user_json u) =
       ["id"; "email"; "password"; "name"; "role"; "createdAt"; "companyId"] /\
     match user_json u with
     | JObj fields => prop "password" fields = Some (JStr (User.password u))
     | _ => False
     end) /\
  users_routes_get Sample.db =
  (Resolved (json 200 (JArr
     [JObj [("id", JNum 1); ("email", JStr "alice@example.com");
            ("password", JStr "$2b$10$wonderland"); ("name", JStr "Alice");
            ("role", JStr "USER"); ("createdAt", JNum 900); ("companyId", JNull)];
      JObj [("id", JNum 2); ("email", JStr "bob@example.com");
            ("password", JStr "$2b$10$builder"); ("name", JStr "Bob");
            ("role", JStr "USER"); ("createdAt", JNum 901); ("companyId", JNull)]])),
   Sample.db).
Proof.
  split; [|split].
  - reflexivity.
  - intros u. split; reflexivity.
  - reflexivity.
Qed.

(** ** What is stored as a password *)

(** The development-only [POST /users] of the final router stores the
    bcrypt hash. *)
Lemma router_post_users_hashes
    (bcrypt_hash : string -> Z -> string) (env : Env)
    (req : Request) (db : Db) (e p n : string) :
  NODE_ENV env = "development" ->
  prop "email" (req_body req) = Some (JStr e) -> e <> "" ->
  prop "password" (req_body req) = Some (JStr p) -> p <> "" ->
  prop "name" (req_body req) = Some (JStr n) -> n <> "" ->
  Prisma.user_by_email e db = None ->
  router_post_users bcrypt_hash env req db =
  (Resolved (json 201 (select_user (registered bcrypt_hash e p n db))),
   add_user (registered bcrypt_hash e p n db) db).
Proof.
  intros Hdev He Hne Hp Hnp Hn Hnn Hu. apply truthy_string in Hne, Hnp, Hnn.
  unfold router_post_users. rewrite Hdev, He, Hp, Hn, Hne, Hnp, Hnn. simpl.
  unfold bcrypt_hash_async. run. simpl. rewrite Hu. reflexivity.
Qed.

(** Outside development the same route is a 404 and writes nothing. *)
Lemma router_post_users_gated
    (bcrypt_hash : string -> Z -> string) (env : Env) (req : Request) (db : Db) :
  NODE_ENV env <> "development" ->
  router_post_users bcrypt_hash env req db =
  (Resolved (json 404 (error_json "Not found")), db).
Proof.
  intros H. unfold router_post_users.
  destruct (String.eqb_spec (NODE_ENV env) "development"); [contradiction|reflexivity].
Qed.

(** C3: [seed.js] stores the administrator's password as the literal
    ["admin123"], and the earlier [POST /users] stores the password of the
    body as it came; neither goes through [bcrypt.hash]. *)
Theorem seed_stores_plaintext_password :
  seed_main Sample.empty_db =
  (Resolved tt,
   mkDb [User.mk 1 "admin@taskscompleted.com" "admin123" "Admin" "ADMIN" 1000 (Some 1)]
        [] [Company.mk 1 "TasksCompleted"] 2 1 2 1000) /\
  app_post_users
    (Sample.request "" [("email", JStr "carol@example.com");
                        ("password", JStr "hunter2");
                        ("name", JStr "Carol")]) Sample.db =
  (Resolved (json 201 (select_user
                         (User.mk 3 "carol@example.com" "hunter2" "Carol" "USER" 1000 None))),
   add_user (User.mk 3 "carol@example.com" "hunter2" "Carol" "USER" 1000 None) Sample.db).
Proof. split; reflexivity. Qed.

(** ** Startup *)

(** The final [start] refuses to run without a signing secret: nothing is
    connected or listened on, and the process exits with code 1. *)
Lemma start_refuses_without_secret
    (Number : string -> JsNumber) (env : Env) (connects : bool) :
  JWT_SECRET env = "" ->
  run_start Number env connects =
    [ConsoleError "❌ Error al iniciar:" (mkErr "Error" None "Falta JWT_SECRET en el .env");
     Exit 1] /\
  accepts_connections (run_start Number env connects) = false.
Proof.
  intros H. unfold run_start, start. rewrite H. split; reflexivity.
Qed.

(** [JWT_SECRET] is empty exactly when the variable is unset or empty. *)
Lemma JWT_SECRET_empty (env : Env) :
  JWT_SECRET env = "" <-> env_JWT_SECRET env = None \/ env_JWT_SECRET env = Some "".
Proof.
  unfold JWT_SECRET, or_default.
  destruct (env_JWT_SECRET env) as [[|c s]|]; simpl; split; intros H;
    try discriminate; auto.
  - destruct H as [H|H]; discriminate.
Qed.

(** Whenever the final service listens, its secret is not empty. *)
Lemma listening_has_secret
    (Number : string -> JsNumber) (env : Env) (connects : bool) :
  accepts_connections (run_start Number env connects) = true ->
  JWT_SECRET env <> "".
Proof.
  intros H E. destruct (start_refuses_without_secret Number env connects E) as [_ H'].
  congruence.
Qed.

(** C8: the earlier [start] only warns when the signing secret is missing
    and goes on to listen; the final [start] on the same environment exits
    before it connects or listens. *)
Theorem earlier_start_listens_without_secret :
  start_earlier Sample.no_secret true =
    [ConsoleWarn "⚠️ Falta JWT_SECRET en .env (Auth no funcionará bien)";
     PrismaConnect;
     ConsoleLog "✅ Prisma conectado a la DB";
     Listen (PortNumber (JsInt 3000))] /\
  accepts_connections (start_earlier Sample.no_secret true) = true /\
  accepts_connections (run_start Sample.Number Sample.no_secret true) = false.
Proof. repeat split. Qed.

(** ** The guard *)

(** Without an [Authorization] header the guard answers 401 and the handler
    behind it does not run. *)
Lemma auth_requires_header
    (jwt_verify : string -> string -> Z -> option ReqUser.t) (env : Env)
    (req : Request) (next : ReqUser.t -> Async Response) (db : Db) :
  authorization req = None ->
  auth jwt_verify env req next db =
  (Resolved (json 401 (error_json "Token requerido (Bearer)")), db).
Proof. intros H. unfold auth. rewrite H. reflexivity. Qed.

(** With [Bearer <token>] the guard hands the verified payload to the
    handler, or answers 401 when verification fails. *)
Lemma auth_bearer
    (jwt_verify : string -> string -> Z -> option ReqUser.t) (env : Env)
    (next : ReqUser.t -> Async Response) (db : Db) :
  auth jwt_verify env (mkRequest (Some "Bearer abc") "" []) next db =
  match jwt_verify "abc" (JWT_SECRET env) (now db) with
  | Some payload => next payload db
  | None => (Resolved (json 401 (error_json "Token inválido o expirado")), db)
  end.
Proof. reflexivity. Qed.
(** ** Keeping the store well formed *)

Section Preserves.

Variable P : Db -> Prop.

Lemma preserves_read {A} (m : Async A) : read_only m -> preserves P m.
Proof. intros H db HP. rewrite H. exact HP. Qed.

Lemma preserves_ret {A} (a : A) : preserves P (ret a).
Proof. intros db HP. exact HP. Qed.

Lemma preserves_throw {A} (e : Err) : preserves P (@throw A e).
Proof. intros db HP. exact HP. Qed.

Lemma preserves_bind {A B} (m : Async A) (k : A -> Async B) :
  preserves P m -> (forall a, preserves P (k a)) -> preserves P (bind m k).
Proof.
  intros Hm Hk db HP. unfold bind. specialize (Hm db HP).
  destruct (m db) as [[a|e] db']; simpl in *; [apply Hk; exact Hm|exact Hm].
Qed.

Lemma preserves_try_catch {A} (m : Async A) (h : Err -> Async A) :
  preserves P m -> (forall e, preserves P (h e)) -> preserves P (try_catch m h).
Proof.
  intros Hm Hh db HP. unfold try_catch. specialize (Hm db HP).
  destruct (m db) as [[a|e] db']; simpl in *; [exact Hm|apply Hh; exact Hm].
Qed.

Lemma preserves_string_arg (argument : string) (v : option JValue) :
  preserves P (Prisma.string_arg argument v).
Proof. destruct v as [[]|]; intros db HP; exact HP. Qed.

Lemma preserves_int_arg (argument : string) (n : JsNumber) :
  preserves P (Prisma.int_arg argument n).
Proof.
  destruct n as [| z |]; simpl; try destruct (Prisma.Int_fits z);
    intros db HP; exact HP.
Qed.

End Preserves.

Lemma find_app_some {A} (p : A -> bool) (l l' : list A) :
  find p l <> None -> find p (l ++ l') <> None.
Proof.
  induction l as [|a l IH]; simpl; [congruence|].
  destruct (p a); [congruence|exact IH].
Qed.

Lemma NoDup_map_snoc {A B} (f : A -> B) (l : list A) (x : A) :
  NoDup (map f l) -> ~ In (f x) (map f l) -> NoDup (map f (l ++ [x])).
Proof.
  intros Hl Hx. rewrite map_app. simpl.
  apply NoDup_app; [exact Hl|repeat constructor; simpl; tauto|].
  intros b Hb [<-|[]]. exact (Hx Hb).
Qed.

Lemma filter_keeps_keys_distinct {T K} (key : T -> K) (keep : T -> bool)
    (xs : list T) (Hxs : NoDup (map key xs)) :
  NoDup (map key (filter keep xs)).
Proof.
  induction xs as [|x xs IH]; simpl in *; [constructor|].
  inversion Hxs as [|? ? Hn Hrest]; subst.
  destruct (keep x); simpl; [|auto].
  constructor; [|auto].
  intros Hin. apply Hn. apply in_map_iff in Hin. destruct Hin as (y & Hy & Hin).
  apply filter_In in Hin. apply in_map_iff. exists y. tauto.
Qed.

Lemma Forall_filter_keep {A} (Q : A -> Prop) (p : A -> bool) (l : list A) :
  Forall Q l -> Forall Q (filter p l).
Proof.
  rewrite !Forall_forall. intros H x Hx. apply filter_In in Hx. apply H, Hx.
Qed.

Lemma user_create_well_formed (data : Prisma.UserData) :
  preserves well_formed (Prisma.user_create data).
Proof.
  unfold Prisma.user_create.
  apply preserves_bind; [apply preserves_string_arg|intros e].
  apply preserves_bind; [apply preserves_string_arg|intros p].
  apply preserves_bind; [apply preserves_string_arg|intros n].
  intros db [H1 H2 H3 H4 H5 H6].
  destruct (Prisma.user_by_email e db) eqn:He; simpl; [constructor; assumption|].
  destruct (Prisma.company_exists _ db); simpl; [|constructor; assumption].
  constructor; simpl.
  - apply NoDup_map_snoc; [exact H1|]. simpl. intros Hin.
    apply in_map_iff in Hin. destruct Hin as (u & Hu & Hin).
    rewrite Forall_forall in H4. specialize (H4 u Hin). lia.
  - apply NoDup_map_snoc; [exact H2|]. simpl. intros Hin.
    apply in_map_iff in Hin. destruct Hin as (u & Hu & Hin).
    pose proof (find_none _ _ He u Hin) as Hf. simpl in Hf.
    rewrite Hu, String.eqb_refl in Hf. discriminate.
  - exact H3.
  - apply Forall_app. split.
    + eapply Forall_impl; [|exact H4]. simpl. intros; lia.
    + repeat constructor. simpl. lia.
  - exact H5.
  - eapply Forall_impl; [|exact H6]. intros t Ht.
    unfold Prisma.user_by_id in *. simpl. apply find_app_some. exact Ht.
Qed.

Lemma company_create_well_formed (name : string) :
  preserves well_formed (Prisma.company_create name).
Proof. intros db [H1 H2 H3 H4 H5 H6]. constructor; assumption. Qed.

Lemma task_create_well_formed (title : option JValue) (userId : Z) :
  preserves well_formed (Prisma.task_create title userId).
Proof.
  unfold Prisma.task_create.
  apply preserves_bind; [apply preserves_string_arg|intros s].
  intros db [H1 H2 H3 H4 H5 H6].
  destruct (Prisma.user_by_id userId db) eqn:Hu; simpl; [|constructor; assumption].
  constructor; simpl; try assumption.
  - apply NoDup_map_snoc; [exact H3|]. simpl. intros Hin.
    apply in_map_iff in Hin. destruct Hin as (x & Hx & Hin).
    rewrite Forall_forall in H5. specialize (H5 x Hin). lia.
  - apply Forall_app. split.
    + eapply Forall_impl; [|exact H5]. simpl. intros; lia.
    + repeat constructor. simpl. lia.
  - apply Forall_app. split; [exact H6|].
    repeat constructor. simpl. unfold Prisma.user_by_id in *. simpl.
    rewrite Hu. discriminate.
Qed.

Lemma task_update_well_formed (id : JsNumber) (data : Prisma.TaskData) :
  preserves well_formed (Prisma.task_update id data).
Proof.
  unfold Prisma.task_update.
  apply preserves_bind; [apply preserves_int_arg|intros i].
  apply preserves_bind.
  { destruct (Prisma.data_title data); [|apply preserves_ret].
    apply preserves_bind; [apply preserves_string_arg|intros; apply preserves_ret]. }
  intros title db [H1 H2 H3 H4 H5 H6].
  destruct (Prisma.task_by_id i db); simpl; [|constructor; assumption].
  assert (Hupd : forall upd : Task.t -> Task.t,
            (forall x, Task.id (upd x) = Task.id x) ->
            (forall x, Task.userId (upd x) = Task.userId x) ->
            well_formed
              (Prisma.set_tasks
                 (map (fun x => if Task.id x =? i then upd x else x) (tasks db)) db)).
  { intros upd Hid Howner. constructor; simpl; try assumption.
    - rewrite map_map. erewrite map_ext; [exact H3|].
      intros a. destruct (Task.id a =? i); [apply Hid|reflexivity].
    - apply Forall_map. eapply Forall_impl; [|exact H5].
      intros a Ha. destruct (Task.id a =? i); [rewrite Hid|]; exact Ha.
    - apply Forall_map. eapply Forall_impl; [|exact H6].
      intros a Ha. destruct (Task.id a =? i); [rewrite Howner|]; exact Ha. }
  destruct title, (Prisma.data_completed data); simpl;
    try (apply Hupd; intros; reflexivity).
  constructor; assumption.
Qed.

Lemma task_delete_well_formed (id : JsNumber) :
  preserves well_formed (Prisma.task_delete id).
Proof.
  unfold Prisma.task_delete.
  apply preserves_bind; [apply preserves_int_arg|intros i].
  intros db [H1 H2 H3 H4 H5 H6].
  destruct (Prisma.task_by_id i db); simpl; [|constructor; assumption].
  constructor; simpl; try assumption.
  - apply filter_keeps_keys_distinct. exact H3.
  - apply Forall_filter_keep. exact H5.
  - apply Forall_filter_keep. exact H6.
Qed.

(** Stepping through a handler: every store call keeps the store well
    formed, and so do the monad's combinators. *)
Ltac keeps :=
  repeat first
    [ apply preserves_ret
    | apply preserves_throw
    | apply preserves_string_arg
    | apply preserves_int_arg
    | apply user_create_well_formed
    | apply company_create_well_formed
    | apply task_create_well_formed
    | apply task_update_well_formed
    | apply task_delete_well_formed
    | apply preserves_read; intro; reflexivity
    | apply preserves_bind; [|intros ?]
    | apply preserves_try_catch; [|intros ?]
    | match goal with
      | |- preserves _ (if ?c then _ else _) => destruct c
      | |- preserves _ (match ?x with _ => _ end) => destruct x
      end ].

Lemma auth_preserves (P : Db -> Prop)
    (jwt_verify : string -> string -> Z -> option ReqUser.t) (env : Env)
    (req : Request) (next : ReqUser.t -> Async Response) :
  (forall user, preserves P (next user)) ->
  preserves P (auth jwt_verify env req next).
Proof.
  intros Hn. unfold auth. cbv zeta.
  match goal with |- preserves _ (if ?c then _ else _) => destruct c end;
    [apply preserves_ret|].
  intros db HP.
  destruct (jwt_verify _ _ _); [apply Hn; exact HP|exact HP].
Qed.

(** X1: every handler of the final router, the earlier handlers, the users
    route and the seed script keep the store well formed: unique ids and
    emails, counters above the ids in use, every task owned by a user. *)
Theorem handlers_keep_store_well_formed
    (bcrypt_hash : string -> Z -> string)
    (bcrypt_compare : string -> string -> bool)
    (jwt_sign : Z -> string -> string -> string -> Z -> Outcome string)
    (Number : string -> JsNumber) (env : Env)
    (user : ReqUser.t) (req : Request) (db : Db) :
  well_formed db ->
  well_formed (snd (router_get_users db)) /\
  well_formed (snd (router_post_users bcrypt_hash env req db)) /\
  well_formed (snd (router_post_auth_register bcrypt_hash jwt_sign env req db)) /\
  well_formed (snd (router_post_auth_login bcrypt_compare jwt_sign env req db)) /\
  well_formed (snd (router_get_me user db)) /\
  well_formed (snd (router_get_tasks user db)) /\
  well_formed (snd (router_post_tasks user req db)) /\
  well_formed (snd (router_patch_task Number user req db)) /\
  well_formed (snd (router_delete_task Number user req db)) /\
  well_formed (snd (app_post_users req db)) /\
  well_formed (snd (app_patch_task Number user req db)) /\
  well_formed (snd (users_routes_get db)) /\
  well_formed (snd (seed_main db)).
Proof.
  intros H.
  repeat match goal with |- _ /\ _ => split end;
    match goal with |- well_formed (snd (?m db)) =>
      revert db H; change (preserves well_formed m)
    end.
  - unfold router_get_users. keeps.
  - unfold router_post_users, bcrypt_hash_async. cbv zeta. keeps.
  - unfold router_post_auth_register, bcrypt_hash_async, sign_token,
      Prisma.user_findUnique_email.
    cbv zeta. keeps.
  - unfold router_post_auth_login, bcrypt_compare_async, sign_token,
      Prisma.user_findUnique_email.
    cbv zeta. keeps.
  - unfold router_get_me. keeps.
  - unfold router_get_tasks. keeps.
  - unfold router_post_tasks, String_async. cbv zeta. keeps.
  - unfold router_patch_task, patch_data, String_async, Prisma.task_findFirst.
    cbv zeta. keeps.
  - unfold router_delete_task, Prisma.task_findFirst. cbv zeta. keeps.
  - unfold app_post_users. cbv zeta. keeps.
  - unfold app_patch_task, Prisma.task_findFirst. cbv zeta. keeps.
  - unfold users_routes_get. keeps.
  - unfold seed_main. keeps.
Qed.

Lemma handlers_keep_store_well_formed_witness :
  well_formed
    (snd (router_post_auth_register Sample.bcrypt_hash Sample.jwt_sign Sample.env
            (Sample.request "" [("email", JStr "carol@example.com");
                                ("password", JStr "hunter2");
                                ("name", JStr "Carol")]) Sample.db)).
Proof.
  refine (proj1 (proj2 (proj2 (handlers_keep_store_well_formed
            Sample.bcrypt_hash Sample.bcrypt_compare Sample.jwt_sign Sample.Number
            Sample.env Sample.as_alice _ Sample.db _)))).
  constructor; simpl;
    repeat constructor; simpl; try lia; try discriminate;
    intuition discriminate.
Defined.

(** ** One user's requests and another user's tasks *)

Lemma NoDup_map_injective {A B} (f : A -> B) (l : list A) (x y : A) :
  NoDup (map f l) -> In x l -> In y l -> f x = f y -> x = y.
Proof.
  induction l as [|a l IH]; simpl; [tauto|].
  intros H Hx Hy E. inversion H as [|? ? Hn Hl]; subst.
  destruct Hx as [<-|Hx], Hy as [<-|Hy]; auto.
  - exfalso. apply Hn. rewrite E. apply in_map. exact Hy.
  - exfalso. apply Hn. rewrite <- E. apply in_map. exact Hx.
Qed.

Lemma filter_map_fixed {A} (p : A -> bool) (g : A -> A) (l : list A) :
  (forall x, In x l -> p (g x) = p x) ->
  (forall x, In x l -> p x = true -> g x = x) ->
  filter p (map g l) = filter p l.
Proof.
  induction l as [|a l IH]; simpl; [reflexivity|].
  intros H1 H2. rewrite (H1 a) by auto.
  destruct (p a) eqn:E.
  - rewrite (H2 a) by auto. f_equal. apply IH; auto.
  - apply IH; auto.
Qed.

Lemma filter_filter_absorb {A} (p q : A -> bool) (l : list A) :
  (forall x, In x l -> p x = true -> q x = true) ->
  filter p (filter q l) = filter p l.
Proof.
  induction l as [|a l IH]; simpl; [reflexivity|].
  intros H. destruct (q a) eqn:Eq; simpl.
  - destruct (p a); [f_equal|]; apply IH; auto.
  - destruct (p a) eqn:Ep; [|apply IH; auto].
    rewrite (H a) in Eq by auto. discriminate.
Qed.

(** In a well-formed store the task with a given id is the one the owner
    lookup finds. *)
Lemma owned_task_is_the_task (i owner : Z) (db : Db) (t x : Task.t) :
  well_formed db ->
  Prisma.task_by_id_owner i owner db = Some t ->
  In x (tasks db) -> Task.id x = i -> x = t.
Proof.
  intros Hwf Hl Hx Hi.
  apply owned_task_fields in Hl. destruct Hl as (Ht & Hid & _).
  apply (NoDup_map_injective Task.id (tasks db)); auto.
  - apply Hwf.
  - congruence.
Qed.

Lemma update_leaves_others (i owner : Z) (db : Db) (t : Task.t) (g : Task.t -> Task.t) :
  well_formed db ->
  Prisma.task_by_id_owner i owner db = Some t ->
  (forall x, Task.userId (g x) = Task.userId x) ->
  tasks_of_others owner
    (Prisma.set_tasks (map (fun x => if Task.id x =? i then g x else x) (tasks db)) db)
  = tasks_of_others owner db.
Proof.
  intros Hwf Hl Hg. unfold tasks_of_others. simpl.
  apply filter_map_fixed.
  - intros x _. destruct (Task.id x =? i); [rewrite Hg|]; reflexivity.
  - intros x Hx Hp. destruct (Task.id x =? i) eqn:E; [|reflexivity].
    apply Z.eqb_eq in E.
    rewrite (owned_task_is_the_task _ _ _ _ _ Hwf Hl Hx E) in Hp.
    apply owned_task_fields in Hl. destruct Hl as (_ & _ & Ho).
    rewrite Ho, Z.eqb_refl in Hp. discriminate.
Qed.

Lemma delete_leaves_others (i owner : Z) (db : Db) (t : Task.t) :
  well_formed db ->
  Prisma.task_by_id_owner i owner db = Some t ->
  tasks_of_others owner
    (Prisma.set_tasks (filter (fun x => negb (Task.id x =? i)) (tasks db)) db)
  = tasks_of_others owner db.
Proof.
  intros Hwf Hl. unfold tasks_of_others. simpl.
  apply filter_filter_absorb.
  intros x Hx Hp. destruct (Task.id x =? i) eqn:E; [|reflexivity].
  apply Z.eqb_eq in E.
  rewrite (owned_task_is_the_task _ _ _ _ _ Hwf Hl Hx E) in Hp.
  apply owned_task_fields in Hl. destruct Hl as (_ & _ & Ho).
  rewrite Ho, Z.eqb_refl in Hp. discriminate.
Qed.


(** X2: A task handler writes to the caller's tasks only: whatever the request,
    the tasks of every other user and the users table are afterwards what
    they were. *)
Theorem task_handlers_leave_other_users_tasks
    (Number : string -> JsNumber) (user : ReqUser.t) (req : Request) (db : Db) :
  well_formed db ->
  let same (db' : Db) :=
    tasks_of_others (ReqUser.id user) db' = tasks_of_others (ReqUser.id user) db /\
    users db' = users db in
  same (snd (router_post_tasks user req db)) /\
  same (snd (router_patch_task Number user req db)) /\
  same (snd (router_delete_task Number user req db)).
Proof.
  intros Hwf same. unfold same. split; [|split].
  - rewrite router_post_tasks_run.
    destruct (negb (truthy (prop "title" (req_body req)))); [split; reflexivity|].
    destruct (String_of (prop "title" (req_body req))); [|split; reflexivity].
    destruct (Prisma.user_by_id (ReqUser.id user) db); [|split; reflexivity].
    simpl. split; [|reflexivity].
    unfold tasks_of_others. simpl. rewrite filter_app. simpl.
    rewrite Z.eqb_refl. simpl. apply app_nil_r.
  - destruct (router_patch_task_cases Number user req db)
      as [(r & -> & _)|[(e & -> & _)|(i & t & t0 & title & HN & _ & Hl & H0 & _ & ->)]];
      [split; reflexivity|split; reflexivity|].
    simpl. split; [|reflexivity].
    apply (update_leaves_others _ _ _ _ _ Hwf Hl). reflexivity.
  - destruct (router_delete_task_cases Number user req db)
      as [(r & -> & _)|(i & t & HN & _ & Hl & ->)]; [split; reflexivity|].
    simpl. split; [|reflexivity].
    apply (delete_leaves_others _ _ _ _ Hwf Hl).
Qed.

Lemma task_handlers_leave_other_users_tasks_witness :
  tasks_of_others 1
    (snd (router_delete_task Sample.Number Sample.as_alice (Sample.request "1" [])
            Sample.db)) = [Sample.bricks].
Proof.
  refine (proj1 (proj2 (proj2 (task_handlers_leave_other_users_tasks
            Sample.Number Sample.as_alice (Sample.request "1" []) Sample.db _)))).
  constructor; simpl;
    repeat constructor; simpl; try lia; try discriminate;
    intuition discriminate.
Defined.

(** ** Statuses and writes *)

Ltac in_codes := simpl; repeat (first [left; reflexivity | right]).

Ltac answered :=
  do 2 eexists; split; [reflexivity|];
  split; [in_codes|first [left; reflexivity | right; in_codes]].

(** Registration for every body: it answers, and writes with a 201 only,
    unless [jwt.sign] throws, which happens after the user is stored and
    is answered 500. *)
Lemma router_post_auth_register_answers
    (bcrypt_hash : string -> Z -> string)
    (jwt_sign : Z -> string -> string -> string -> Z -> Outcome string) (env : Env)
    (req : Request) (db : Db) :
  answers (router_post_auth_register bcrypt_hash jwt_sign env req) db
          [201; 400; 409; 500] [201] \/
  exists e r db',
    jwt_sign (user_seq db) "USER" (JWT_SECRET env) (JWT_EXPIRES_IN env) (now db)
      = Rejected e /\
    router_post_auth_register bcrypt_hash jwt_sign env req db = (Resolved r, db') /\
    status r = 500.
Proof.
  unfold answers, router_post_auth_register, sign_token. cbv zeta.
  destruct (negb (truthy (prop "email" (req_body req)))
            || negb (truthy (prop "password" (req_body req)))
            || negb (truthy (prop "name" (req_body req))))%bool; [left; answered|].
  unfold bcrypt_hash_async. run.
  destruct (prop "email" (req_body req)) as [[]|]; try (left; answered).
  destruct (Prisma.user_by_email s db) eqn:He; [left; answered|].
  destruct (prop "password" (req_body req)) as [[]|]; try (left; answered).
  destruct (prop "name" (req_body req)) as [[]|]; simpl; try (left; answered).
  rewrite He. simpl.
  destruct (jwt_sign (user_seq db) "USER" (JWT_SECRET env) (JWT_EXPIRES_IN env) (now db))
    as [token|e] eqn:Hsign.
  - left. answered.
  - right. exists e. do 2 eexists. split; [reflexivity|]. split; reflexivity.
Qed.

Lemma router_post_users_answers
    (bcrypt_hash : string -> Z -> string) (env : Env) (req : Request) (db : Db) :
  answers (router_post_users bcrypt_hash env req) db [201; 400; 404; 409; 500] [201].
Proof.
  unfold answers, router_post_users. cbv zeta.
  destruct (negb (NODE_ENV env =? "development")%string); [answered|].
  destruct (negb (truthy (prop "email" (req_body req)))
            || negb (truthy (prop "password" (req_body req)))
            || negb (truthy (prop "name" (req_body req))))%bool; [answered|].
  unfold bcrypt_hash_async. run.
  destruct (prop "password" (req_body req)) as [[]|]; try answered.
  destruct (prop "email" (req_body req)) as [[]|]; simpl; try answered.
  destruct (prop "name" (req_body req)) as [[]|]; simpl; try answered.
  destruct (Prisma.user_by_email s0 db) eqn:He; answered.
Qed.

Lemma router_post_auth_login_answers
    (bcrypt_compare : string -> string -> bool)
    (jwt_sign : Z -> string -> string -> string -> Z -> Outcome string) (env : Env)
    (req : Request) (db : Db) :
  answers (router_post_auth_login bcrypt_compare jwt_sign env req) db
          [200; 400; 401; 500] [].
Proof.
  unfold answers, router_post_auth_login, sign_token. cbv zeta.
  destruct (negb (truthy (prop "email" (req_body req)))
            || negb (truthy (prop "password" (req_body req))))%bool; [answered|].
  unfold bcrypt_compare_async. run.
  destruct (prop "email" (req_body req)) as [[]|]; try answered.
  destruct (Prisma.user_by_email s db) eqn:He; [|answered].
  destruct (prop "password" (req_body req)) as [[]|]; try answered.
  destruct (bcrypt_compare s0 (User.password t)); [|answered]. simpl.
  destruct (jwt_sign _ _ _ _ _); answered.
Qed.

(** X3: every handler of the final router but [PATCH /tasks/:id] settles
    with a response (no rejection escapes its [catch]) whose status is one
    its route can give; [PATCH /tasks/:id] does so too unless [String(title)]
    throws, in which case its promise is rejected and nothing is written.
    The store is written only with a 201 of [POST /users],
    [POST /auth/register] and [POST /tasks], a 200 of [PATCH /tasks/:id] and
    a 204 of [DELETE /tasks/:id], and in one more case: a registration whose
    [jwt.sign] throws is answered 500 after the user was stored. *)
Theorem final_router_answers
    (bcrypt_hash : string -> Z -> string)
    (bcrypt_compare : string -> string -> bool)
    (jwt_sign : Z -> string -> string -> string -> Z -> Outcome string)
    (Number : string -> JsNumber) (env : Env)
    (user : ReqUser.t) (req : Request) (db : Db) :
  answers router_get_users db [200; 500] [] /\
  answers (router_post_users bcrypt_hash env req) db [201; 400; 404; 409; 500] [201] /\
  (answers (router_post_auth_register bcrypt_hash jwt_sign env req) db
           [201; 400; 409; 500] [201] \/
   exists e r db',
     jwt_sign (user_seq db) "USER" (JWT_SECRET env) (JWT_EXPIRES_IN env) (now db)
       = Rejected e /\
     router_post_auth_register bcrypt_hash jwt_sign env req db = (Resolved r, db') /\
     status r = 500) /\
  answers (router_post_auth_login bcrypt_compare jwt_sign env req) db
          [200; 400; 401; 500] [] /\
  answers (router_get_me user) db [200; 500] [] /\
  answers (router_get_tasks user) db [200; 500] [] /\
  answers (router_post_tasks user req) db [201; 400; 500] [201] /\
  (answers (router_patch_task Number user req) db [200; 400; 404; 500] [200] \/
   exists e,
     router_patch_task Number user req db = (Rejected e, db) /\
     String_of (prop "title" (req_body req)) = None) /\
  answers (router_delete_task Number user req) db [204; 400; 404; 500] [204].
Proof.
  repeat match goal with |- _ /\ _ => split end.
  - answered.
  - apply router_post_users_answers.
  - apply router_post_auth_register_answers.
  - apply router_post_auth_login_answers.
  - answered.
  - answered.
  - unfold answers. rewrite router_post_tasks_run.
    destruct (negb (truthy (prop "title" (req_body req)))); [answered|].
    destruct (String_of (prop "title" (req_body req))); [|answered].
    destruct (Prisma.user_by_id (ReqUser.id user) db); answered.
  - unfold answers.
    destruct (router_patch_task_cases Number user req db)
      as [(r & -> & Hs)|[(e & -> & Ht)|(i & t & t0 & title & _ & _ & _ & _ & _ & ->)]].
    + left. do 2 eexists. split; [reflexivity|]. split; [|left; reflexivity].
      destruct Hs as [ -> | [ -> | -> ] ]; in_codes.
    + right. exists e. split; [reflexivity|].
      unfold trimmed_title in Ht. unfold String_of.
      destruct (prop "title" (req_body req)); [|discriminate].
      destruct (String_ j); [discriminate|reflexivity].
    + left. answered.
  - unfold answers.
    destruct (router_delete_task_cases Number user req db)
      as [(r & -> & Hs)|(i & t & _ & _ & _ & ->)]; [|answered].
    do 2 eexists. split; [reflexivity|]. split; [|left; reflexivity].
    destruct Hs as [ -> | [ -> | -> ] ]; in_codes.
Qed.

(** ** Registration, then login *)

Lemma find_snoc_none {A} (p : A -> bool) (l : list A) (x : A) :
  find p l = None -> p x = true -> find p (l ++ [x]) = Some x.
Proof.
  induction l as [|a l IH]; simpl; intros Hl Hx.
  - rewrite Hx. reflexivity.
  - destruct (p a); [discriminate|auto].
Qed.

Lemma user_by_email_add_user (u : User.t) (db : Db) :
  Prisma.user_by_email (User.email u) db = None ->
  Prisma.user_by_email (User.email u) (add_user u db) = Some u.
Proof.
  intros H. unfold Prisma.user_by_email, add_user. simpl.
  apply find_snoc_none; [exact H|apply String.eqb_refl].
Qed.

Lemma user_by_id_add_user (u : User.t) (db : Db) :
  well_formed db ->
  User.id u = user_seq db ->
  Prisma.user_by_id (User.id u) (add_user u db) = Some u.
Proof.
  intros Hwf Hid. unfold Prisma.user_by_id, add_user. simpl.
  apply find_snoc_none; [|apply Z.eqb_refl].
  destruct (find _ (users db)) eqn:Hf; [|reflexivity].
  apply find_some in Hf. destruct Hf as [Hin He]. apply Z.eqb_eq in He.
  pose proof (user_ids_below_seq db Hwf) as Hb. rewrite Forall_forall in Hb.
  specialize (Hb _ Hin). lia.
Qed.

(** X4: a registration with a new email stores the user whether or not a
    token could be signed.  The same email then logs in: with a password
    bcrypt matches against the stored hash the answer is 200 with the user
    object of the registration and the token [jwt.sign] returns, or 500
    when [jwt.sign] throws; with any other password it is 401.  A second
    registration of the email gets 409 and writes nothing. *)
Theorem register_then_login
    (bcrypt_hash : string -> Z -> string)
    (bcrypt_compare : string -> string -> bool)
    (jwt_sign : Z -> string -> string -> string -> Z -> Outcome string) (env : Env)
    (req login again : Request) (db : Db) (e p n : string) :
  prop "email" (req_body req) = Some (JStr e) -> e <> "" ->
  prop "password" (req_body req) = Some (JStr p) -> p <> "" ->
  prop "name" (req_body req) = Some (JStr n) -> n <> "" ->
  Prisma.user_by_email e db = None ->
  let u := registered bcrypt_hash e p n db in
  let db' := snd (router_post_auth_register bcrypt_hash jwt_sign env req db) in
  db' = add_user u db /\
  (forall p',
     prop "email" (req_body login) = Some (JStr e) ->
     prop "password" (req_body login) = Some (JStr p') -> p' <> "" ->
     router_post_auth_login bcrypt_compare jwt_sign env login db' =
     (Resolved
        (if bcrypt_compare p' (bcrypt_hash p 10)
         then match jwt_sign (User.id u) (User.role u)
                             (JWT_SECRET env) (JWT_EXPIRES_IN env) (now db') with
              | Resolved token =>
                  json 200 (JObj [("user", select_user u); ("token", JStr token)])
              | Rejected err => json 500 (error_detail_json "Error en login" err)
              end
         else json 401 (error_json "Credenciales inválidas")),
      db')) /\
  (prop "email" (req_body again) = Some (JStr e) ->
   truthy (prop "password" (req_body again)) = true ->
   truthy (prop "name" (req_body again)) = true ->
   router_post_auth_register bcrypt_hash jwt_sign env again db' =
   (Resolved (json 409 (error_json "Ese email ya existe")), db')).
Proof.
  intros He Hne Hp Hnp Hn Hnn Hu u db'.
  assert (Hdb : db' = add_user u db).
  { unfold db', router_post_auth_register, bcrypt_hash_async, sign_token.
    apply truthy_string in Hne, Hnp, Hnn.
    rewrite He, Hp, Hn, Hne, Hnp, Hnn. simpl. run. rewrite Hu. simpl.
    rewrite Hu. simpl. destruct (jwt_sign _ _ _ _ _); reflexivity. }
  assert (Hfound : Prisma.user_by_email e db' = Some u).
  { rewrite Hdb. apply (user_by_email_add_user u db). exact Hu. }
  split; [exact Hdb|split].
  - intros p' He' Hp' Hnp'. apply truthy_string in Hne, Hnp'.
    unfold router_post_auth_login, bcrypt_compare_async, sign_token.
    rewrite He', Hp', Hne, Hnp'. simpl. run. rewrite Hfound. simpl.
    destruct (bcrypt_compare p' (bcrypt_hash p 10)); [|reflexivity]. simpl.
    destruct (jwt_sign _ _ _ _ _); reflexivity.
  - intros He' Hp' Hn'. apply truthy_string in Hne.
    unfold router_post_auth_register.
    rewrite He', Hne, Hp', Hn'. simpl. run. rewrite Hfound. reflexivity.
Qed.

Lemma register_then_login_witness :
  let carol := Sample.request "" [("email", JStr "carol@example.com");
                                  ("password", JStr "hunter2");
                                  ("name", JStr "Carol")] in
  let db' := snd (router_post_auth_register Sample.bcrypt_hash Sample.jwt_sign
                    Sample.env carol Sample.db) in
  router_post_auth_login Sample.bcrypt_compare Sample.jwt_sign Sample.env carol db' =
  (Resolved
     (json 200
        (JObj [("user", select_user (User.mk 3 "carol@example.com" "$2b$10$hunter2"
                                             "Carol" "USER" 1000 None));
               ("token", JStr "jwt:3:USER:7d:s3cret")])),
   db').
Proof.
  intros carol db'.
  refine (proj1 (proj2 (register_then_login
            Sample.bcrypt_hash Sample.bcrypt_compare Sample.jwt_sign Sample.env
            carol carol carol Sample.db "carol@example.com" "hunter2" "Carol"
            eq_refl _ eq_refl _ eq_refl _ eq_refl)) "hunter2" eq_refl eq_refl _);
    discriminate.
Defined.
(** ** The guard and the routes behind it *)

Lemma append_empty_r (s : string) : s ++ "" = s.
Proof. induction s as [|c s IH]; simpl; [|rewrite IH]; reflexivity. Qed.

Lemma append_snoc (a : string) (c : ascii) (s : string) :
  (a ++ String c "") ++ s = a ++ String c s.
Proof. induction a as [|d a IH]; simpl; [|rewrite IH]; reflexivity. Qed.

Lemma split_space_aux_no_space (acc s : string) :
  has_space s = false -> split_space_aux acc s = [acc ++ s].
Proof.
  revert acc. induction s as [|c s IH]; simpl; intros acc H.
  - rewrite append_empty_r. reflexivity.
  - apply orb_false_iff in H. destruct H as [Hc Hs]. rewrite Hc.
    rewrite IH by exact Hs. rewrite append_snoc. reflexivity.
Qed.

Lemma split_space_bearer (tok : string) :
  has_space tok = false -> split_space ("Bearer " ++ tok) = ["Bearer"; tok].
Proof.
  intros H. unfold split_space. simpl.
  rewrite split_space_aux_no_space by exact H. reflexivity.
Qed.

(** X6: the guard lets a request through only with the payload [jwt.verify]
    returned for the second space-separated piece of a header whose first
    piece is [Bearer]; every other request is answered 401, with one of two
    messages, and the handler behind the guard does not run. *)
Theorem auth_lets_only_verified_tokens_through
    (jwt_verify : string -> string -> Z -> option ReqUser.t) (env : Env)
    (req : Request) (next : ReqUser.t -> Async Response) (db : Db) :
  let pieces := split_space (or_default (authorization req) "") in
  auth jwt_verify env req next db =
    (Resolved (json 401 (error_json "Token requerido (Bearer)")), db) \/
  auth jwt_verify env req next db =
    (Resolved (json 401 (error_json "Token inválido o expirado")), db) \/
  exists tok payload,
    nth_error pieces 0 = Some "Bearer" /\
    nth_error pieces 1 = Some tok /\
    tok <> "" /\
    jwt_verify tok (JWT_SECRET env) (now db) = Some payload /\
    auth jwt_verify env req next db = next payload db.
Proof.
  intros pieces. unfold auth. cbv zeta. fold pieces.
  destruct (nth_error pieces 0) as [ty|] eqn:H0; [|left; reflexivity].
  destruct (nth_error pieces 1) as [tok|] eqn:H1;
    [|left; destruct (String.eqb ty "Bearer"); reflexivity].
  destruct (String.eqb_spec ty "Bearer") as [->|]; [|left; reflexivity].
  destruct tok as [|c tok']; [left; reflexivity|].
  cbn [negb orb string_is_empty].
  destruct (jwt_verify (String c tok') (JWT_SECRET env) (now db)) as [payload|] eqn:Hv;
    [|right; left; reflexivity].
  right. right. exists (String c tok'), payload.
  repeat split; auto. discriminate.
Qed.

(** X7: A header [Bearer <token>] with a non-empty token free of spaces is
    decided by [jwt.verify] alone; a header with any other scheme, and a
    request with no header or an empty one, are answered 401. *)
Theorem auth_on_a_bearer_header
    (jwt_verify : string -> string -> Z -> option ReqUser.t) (env : Env)
    (req : Request) (next : ReqUser.t -> Async Response) (db : Db)
    (scheme tok : string) :
  has_space scheme = false ->
  has_space tok = false ->
  tok <> "" ->
  (authorization req = Some ("Bearer " ++ tok) ->
   auth jwt_verify env req next db =
   match jwt_verify tok (JWT_SECRET env) (now db) with
   | Some payload => next payload db
   | None => (Resolved (json 401 (error_json "Token inválido o expirado")), db)
   end) /\
  (authorization req = Some (scheme ++ " " ++ tok) -> scheme <> "Bearer" ->
   auth jwt_verify env req next db =
   (Resolved (json 401 (error_json "Token requerido (Bearer)")), db)) /\
  (authorization req = None \/ authorization req = Some "" ->
   auth jwt_verify env req next db =
   (Resolved (json 401 (error_json "Token requerido (Bearer)")), db)).
Proof.
  intros Hs Ht Hne. split; [|split].
  - intros H. unfold auth. rewrite H. cbv zeta.
    replace (or_default (Some ("Bearer " ++ tok)) "") with ("Bearer " ++ tok)
      by reflexivity.
    rewrite (split_space_bearer tok Ht). simpl.
    destruct tok; [contradiction|reflexivity].
  - intros H Hn. unfold auth. rewrite H. cbv zeta.
    assert (Hd : or_default (Some (scheme ++ " " ++ tok)) "" = scheme ++ " " ++ tok).
    { unfold or_default. destruct scheme; reflexivity. }
    rewrite Hd.
    assert (Hp : split_space (scheme ++ " " ++ tok) = [scheme; tok]).
    { unfold split_space.
      assert (G : forall acc, split_space_aux acc (scheme ++ " " ++ tok)
                              = [acc ++ scheme; tok]).
      { clear Hd H Hn. induction scheme as [|c s IH]; intros acc.
        - simpl. rewrite append_empty_r.
          rewrite split_space_aux_no_space by exact Ht. reflexivity.
        - simpl in Hs. apply orb_false_iff in Hs. destruct Hs as [Hc Hs'].
          simpl. rewrite Hc. rewrite IH by exact Hs'.
          rewrite append_snoc. reflexivity. }
      apply G. }
    rewrite Hp. simpl.
    destruct (String.eqb_spec scheme "Bearer"); [contradiction|reflexivity].
  - intros [H|H]; unfold auth; rewrite H; reflexivity.
Qed.

Lemma auth_on_a_bearer_header_witness :
  auth sample_jwt_verify Sample.env
       (mkRequest (Some "Bearer jwt:1:USER:7d:s3cret") "" [])
       (fun user => router_get_me user) Sample.db =
  (Resolved (json 200 (select_user Sample.alice)), Sample.db).
Proof.
  refine (proj1 (auth_on_a_bearer_header sample_jwt_verify Sample.env
                   (mkRequest (Some "Bearer jwt:1:USER:7d:s3cret") "" [])
                   (fun user => router_get_me user) Sample.db
                   "Basic" "jwt:1:USER:7d:s3cret" eq_refl eq_refl _) eq_refl).
  discriminate.
Defined.

(** X5: the token [jwt.sign] returns at a registration opens [GET /me],
    which answers with the user object the registration returned. *)
Theorem register_then_me
    (bcrypt_hash : string -> Z -> string)
    (jwt_sign : Z -> string -> string -> string -> Z -> Outcome string)
    (jwt_verify : string -> string -> Z -> option ReqUser.t) (env : Env)
    (req me : Request) (db : Db) (e p n token : string) :
  well_formed db ->
  prop "email" (req_body req) = Some (JStr e) -> e <> "" ->
  prop "password" (req_body req) = Some (JStr p) -> p <> "" ->
  prop "name" (req_body req) = Some (JStr n) -> n <> "" ->
  Prisma.user_by_email e db = None ->
  let u := registered bcrypt_hash e p n db in
  jwt_sign (User.id u) (User.role u) (JWT_SECRET env) (JWT_EXPIRES_IN env) (now db)
    = Resolved token ->
  has_space token = false -> token <> "" ->
  jwt_verify token (JWT_SECRET env) (now db) = Some (ReqUser.mk (User.id u) (User.role u)) ->
  authorization me = Some ("Bearer " ++ token) ->
  exists db',
    router_post_auth_register bcrypt_hash jwt_sign env req db =
    (Resolved (json 201 (JObj [("user", select_user u); ("token", JStr token)])), db') /\
    route_get_me jwt_verify env me db' = (Resolved (json 200 (select_user u)), db').
Proof.
  intros Hwf He Hne Hp Hnp Hn Hnn Hu u Hsign Hsp Htok Hv Hme.
  exists (add_user u db). split.
  - apply truthy_string in Hne, Hnp, Hnn.
    unfold router_post_auth_register, bcrypt_hash_async, sign_token.
    rewrite He, Hp, Hn, Hne, Hnp, Hnn. simpl. run. rewrite Hu. simpl.
    rewrite Hu. simpl. simpl in Hsign. rewrite Hsign. reflexivity.
  - unfold route_get_me, auth. rewrite Hme. cbv zeta.
    replace (or_default (Some ("Bearer " ++ token)) "") with ("Bearer " ++ token)
      by reflexivity.
    rewrite (split_space_bearer token Hsp). simpl.
    destruct token as [|c tk] eqn:Et; [contradiction|]. simpl.
    change (now (add_user u db)) with (now db). rewrite Hv.
    unfold router_get_me. run. simpl.
    change (user_seq db) with (User.id u).
    rewrite (user_by_id_add_user u db Hwf eq_refl). reflexivity.
Qed.

Lemma register_then_me_witness :
  exists db',
    router_post_auth_register Sample.bcrypt_hash Sample.jwt_sign Sample.env
      (Sample.request "" [("email", JStr "carol@example.com");
                          ("password", JStr "hunter2");
                          ("name", JStr "Carol")]) Sample.db =
    (Resolved (json 201
       (JObj [("user", select_user (User.mk 3 "carol@example.com" "$2b$10$hunter2"
                                            "Carol" "USER" 1000 None));
              ("token", JStr "jwt:3:USER:7d:s3cret")])), db') /\
    route_get_me sample_jwt_verify Sample.env
      (mkRequest (Some "Bearer jwt:3:USER:7d:s3cret") "" []) db' =
    (Resolved (json 200 (select_user (User.mk 3 "carol@example.com" "$2b$10$hunter2"
                                              "Carol" "USER" 1000 None))), db').
Proof.
  refine (register_then_me Sample.bcrypt_hash Sample.jwt_sign sample_jwt_verify
            Sample.env
            (Sample.request "" [("email", JStr "carol@example.com");
                                ("password", JStr "hunter2");
                                ("name", JStr "Carol")])
            (mkRequest (Some "Bearer jwt:3:USER:7d:s3cret") "" [])
            Sample.db "carol@example.com" "hunter2" "Carol" "jwt:3:USER:7d:s3cret"
            _ eq_refl _ eq_refl _ eq_refl _ eq_refl eq_refl eq_refl _ eq_refl eq_refl);
    try discriminate.
  constructor; simpl;
    repeat constructor; simpl; try lia; try discriminate;
    intuition discriminate.
Defined.
(** ** The origin allowlist *)

Lemma split_on_aux_no_sep (sep : ascii) (acc s : string) :
  has_char sep s = false -> split_on_aux sep acc s = [acc ++ s].
Proof.
  revert acc. induction s as [|c s IH]; simpl; intros acc H.
  - rewrite append_empty_r. reflexivity.
  - apply orb_false_iff in H. destruct H as [Hc Hs]. rewrite Hc.
    rewrite IH by exact Hs. rewrite append_snoc. reflexivity.
Qed.

Lemma split_on_aux_first (sep : ascii) (acc s rest : string) :
  has_char sep s = false ->
  split_on_aux sep acc (s ++ String sep rest) = (acc ++ s) :: split_on_aux sep "" rest.
Proof.
  revert acc. induction s as [|c s IH]; simpl; intros acc H.
  - rewrite Ascii.eqb_refl, append_empty_r. reflexivity.
  - apply orb_false_iff in H. destruct H as [Hc Hs]. rewrite Hc.
    rewrite IH by exact Hs. rewrite append_snoc. reflexivity.
Qed.

(** Splitting at commas undoes joining with commas. *)
Lemma split_on_concat (l : list string) :
  l <> [] ->
  Forall (fun o => has_char ","%char o = false) l ->
  split_on ","%char (String.concat "," l) = l.
Proof.
  unfold split_on. induction l as [|x l IH]; [congruence|].
  intros _ H. inversion H as [|? ? Hx Hl]; subst.
  destruct l as [|y l].
  - simpl. apply (split_on_aux_no_sep _ "" x Hx).
  - change (String.concat "," (x :: y :: l))
      with (x ++ String ","%char (String.concat "," (y :: l))).
    rewrite split_on_aux_first by exact Hx. simpl (_ ++ x)%string.
    f_equal. apply IH; [discriminate|exact Hl].
Qed.

Lemma filter_all {A} (p : A -> bool) (l : list A) :
  Forall (fun x => p x = true) l -> filter p l = l.
Proof.
  induction 1 as [|x l Hx _ IH]; simpl; [reflexivity|].
  rewrite Hx, IH. reflexivity.
Qed.

Lemma filter_none {A} (p : A -> bool) (l : list A) :
  Forall (fun x => p x = false) l -> filter p l = [].
Proof.
  induction 1 as [|x l Hx _ IH]; simpl; [reflexivity|].
  rewrite Hx, IH. reflexivity.
Qed.

(** X9: [CORS_ORIGIN] set to origins joined by commas (each one non-empty, with
    no comma and no white space at its ends) makes exactly those origins the
    allowlist, and the defaults are then not allowed. *)
Theorem allowlist_of_joined_origins (l : list string) :
  l <> [] ->
  Forall (fun o => o <> "" /\ trim o = o /\ has_char ","%char o = false) l ->
  ALLOWED_ORIGINS (Some (String.concat "," l)) = l /\
  originAllowlist (Some (String.concat "," l)) = l.
Proof.
  intros Hne H.
  assert (HA : ALLOWED_ORIGINS (Some (String.concat "," l)) = l).
  { unfold ALLOWED_ORIGINS.
    replace (or_default (Some (String.concat "," l)) "") with (String.concat "," l)
      by (unfold or_default; destruct (String.concat "," l); reflexivity).
    rewrite split_on_concat; [|exact Hne|].
    - rewrite (map_ext_in trim (fun o => o)), map_id.
      + apply filter_all. eapply Forall_impl; [|exact H].
        intros o (Ho & _ & _). destruct o; [contradiction|reflexivity].
      + intros o Ho. rewrite Forall_forall in H. apply (H o Ho).
    - eapply Forall_impl; [|exact H]. intros o (_ & _ & Ho). exact Ho. }
  split; [exact HA|].
  unfold originAllowlist. rewrite HA.
  destruct l; [congruence|reflexivity].
Qed.

Lemma allowlist_of_joined_origins_witness :
  originAllowlist (Some "https://app.example.com,https://admin.example.com") =
  ["https://app.example.com"; "https://admin.example.com"].
Proof.
  refine (proj2 (allowlist_of_joined_origins
                   ["https://app.example.com"; "https://admin.example.com"] _ _)).
  - discriminate.
  - repeat constructor; discriminate.
Defined.

(** X10: whatever [CORS_ORIGIN] is: no member of the allowlist is empty or has
    white space at its ends; a variable that is unset, empty, or made of
    commas and white space only gives the two default origins; a request
    with no origin is always allowed, and one with an origin exactly when
    the origin is on the allowlist. *)
Theorem cors_allowlist_policy (CORS_ORIGIN : option string) :
  Forall (fun o => o <> "" /\ trim o = o) (originAllowlist CORS_ORIGIN) /\
  ((forall piece,
      In piece (split_on ","%char (or_default CORS_ORIGIN "")) -> trim piece = "") ->
   originAllowlist CORS_ORIGIN = DEFAULT_ORIGINS) /\
  originAllowlist None = DEFAULT_ORIGINS /\
  originAllowlist (Some "") = DEFAULT_ORIGINS /\
  cors_origin CORS_ORIGIN None = Resolved true /\
  (forall o, o <> "" ->
     (cors_origin CORS_ORIGIN (Some o) = Resolved true <->
      In o (originAllowlist CORS_ORIGIN))).
Proof.
  split; [|split; [|split; [|split; [|split]]]]; try reflexivity.
  - unfold originAllowlist.
    destruct (Nat.eqb (List.length (ALLOWED_ORIGINS CORS_ORIGIN)) 0).
    + repeat constructor; discriminate.
    + unfold ALLOWED_ORIGINS. rewrite Forall_forall. intros o Ho.
      apply filter_In in Ho. destruct Ho as [Hin Hn].
      apply in_map_iff in Hin. destruct Hin as (piece & <- & _).
      split; [|apply trim_idempotent].
      destruct (trim piece); [discriminate|discriminate].
  - intros H. unfold originAllowlist, ALLOWED_ORIGINS.
    rewrite filter_none; [reflexivity|].
    rewrite Forall_forall. intros o Ho.
    apply in_map_iff in Ho. destruct Ho as (piece & <- & Hp).
    rewrite (H piece Hp). reflexivity.
  - intros o Ho. unfold cors_origin.
    destruct o as [|c o]; [contradiction|]. cbn [string_is_empty].
    destruct (existsb _ _) eqn:E.
    + split; [intros _|reflexivity].
      apply existsb_exists in E. destruct E as (x & Hx & Heq).
      apply String.eqb_eq in Heq. subst x. exact Hx.
    + split; [discriminate|]. intros Hin.
      assert (existsb (String.eqb (String c o)) (originAllowlist CORS_ORIGIN) = true).
      { apply existsb_exists. exists (String c o). split; [exact Hin|].
        apply String.eqb_refl. }
      congruence.
Qed.

Lemma cors_allowlist_policy_witness :
  originAllowlist (Some " , ,") = DEFAULT_ORIGINS.
Proof.
  refine (proj1 (proj2 (cors_allowlist_policy (Some " , ,"))) _).
  intros piece H. simpl in H.
  repeat (destruct H as [<-|H]; [reflexivity|]). destruct H.
Defined.

(** ** Titles *)

Lemma apply_data_trimmed (v : option JValue) (title : option string)
    (completed : option bool) (stamp : Z) (t : Task.t) :
  trimmed_title v = Some title ->
  trim (Task.title t) = Task.title t ->
  let t' := Prisma.apply_data title completed stamp t in
  trim (Task.title t') = Task.title t'.
Proof.
  unfold trimmed_title. intros Hv H.
  destruct v as [x|]; [destruct (String_ x)|]; inversion Hv; subst; simpl;
    [apply trim_idempotent|exact H].
Qed.

(** X11: the task handlers of the final router keep every stored title free of
    white space at its ends: what [POST /tasks] and [PATCH /tasks/:id]
    store is [String(title).trim()], for any JSON value of [title]. *)
Theorem final_task_handlers_keep_titles_trimmed
    (Number : string -> JsNumber) (user : ReqUser.t) (req : Request) (db : Db) :
  titles_trimmed db ->
  titles_trimmed (snd (router_post_tasks user req db)) /\
  titles_trimmed (snd (router_patch_task Number user req db)) /\
  titles_trimmed (snd (router_delete_task Number user req db)).
Proof.
  unfold titles_trimmed. intros H. split; [|split].
  - rewrite router_post_tasks_run.
    destruct (negb (truthy (prop "title" (req_body req)))); [exact H|].
    destruct (String_of (prop "title" (req_body req))); [|exact H].
    destruct (Prisma.user_by_id (ReqUser.id user) db); [|exact H].
    simpl. apply Forall_app. split; [exact H|].
    repeat constructor. simpl. apply trim_idempotent.
  - destruct (router_patch_task_cases Number user req db)
      as [(r & -> & _)|[(e & -> & _)|(i & t & t0 & title & _ & _ & _ & _ & Ht & ->)]];
      [exact H|exact H|].
    simpl. apply Forall_map. eapply Forall_impl; [|exact H].
    intros a Ha. destruct (Task.id a =? i); [|exact Ha].
    apply (apply_data_trimmed _ _ _ _ _ Ht). exact Ha.
  - destruct (router_delete_task_cases Number user req db)
      as [(r & -> & _)|(i & t & _ & _ & _ & ->)]; [exact H|].
    simpl. apply Forall_filter_keep. exact H.
Qed.

Lemma final_task_handlers_keep_titles_trimmed_witness :
  titles_trimmed
    (snd (router_post_tasks Sample.as_alice
            (Sample.request "" [("title", JStr "  water the plants ")]) Sample.db)).
Proof.
  refine (proj1 (final_task_handlers_keep_titles_trimmed
                   Sample.Number Sample.as_alice
                   (Sample.request "" [("title", JStr "  water the plants ")])
                   Sample.db _)).
  repeat constructor.
Defined.

(** ** Listing tasks *)

Lemma insert_desc_perm (t : Task.t) (l : list Task.t) :
  Permutation (Prisma.insert_desc t l) (t :: l).
Proof.
  induction l as [|a l IH]; simpl; [reflexivity|].
  destruct (Task.createdAt a <=? Task.createdAt t); [reflexivity|].
  rewrite IH. apply perm_swap.
Qed.

Lemma sort_desc_perm (l : list Task.t) : Permutation (Prisma.sort_desc l) l.
Proof.
  induction l as [|a l IH]; simpl; [reflexivity|].
  rewrite insert_desc_perm, IH. reflexivity.
Qed.

Lemma insert_desc_sorted (t : Task.t) (l : list Task.t) :
  StronglySorted newer_first l -> StronglySorted newer_first (Prisma.insert_desc t l).
Proof.
  induction 1 as [|a l Hs IH Ha]; simpl.
  - repeat constructor.
  - destruct (Task.createdAt a <=? Task.createdAt t) eqn:E.
    + apply Z.leb_le in E. constructor; [constructor; assumption|].
      constructor; [exact E|].
      eapply Forall_impl; [|exact Ha]. unfold newer_first. intros; lia.
    + apply Z.leb_gt in E. constructor; [exact IH|].
      rewrite Forall_forall. intros x Hx.
      apply insert_desc_In in Hx. destruct Hx as [->|Hx].
      * unfold newer_first. lia.
      * rewrite Forall_forall in Ha. apply Ha, Hx.
Qed.

Lemma sort_desc_sorted (l : list Task.t) : StronglySorted newer_first (Prisma.sort_desc l).
Proof.
  induction l as [|a l IH]; simpl; [constructor|].
  apply insert_desc_sorted, IH.
Qed.

(** X12: [GET /tasks] answers 200 with the caller's tasks, each one once, newest
    first by creation time, and does not write. *)
Theorem get_tasks_lists_own_tasks_newest_first (user : ReqUser.t) (db : Db) :
  exists l,
    router_get_tasks user db = (Resolved (json 200 (JArr (map task_json l))), db) /\
    Permutation l (filter (fun t => Task.userId t =? ReqUser.id user) (tasks db)) /\
    StronglySorted newer_first l.
Proof.
  eexists. split; [reflexivity|]. split.
  - apply sort_desc_perm.
  - apply sort_desc_sorted.
Qed.

(** ** A task from creation to deletion *)

Lemma fresh_task_id (db : Db) :
  well_formed db ->
  Forall (fun x => (Task.id x =? task_seq db) = false) (tasks db).
Proof.
  intros Hwf. eapply Forall_impl; [|apply (task_ids_below_seq db Hwf)].
  simpl. intros a Ha. apply Z.eqb_neq. lia.
Qed.

Lemma find_none_of {A} (p : A -> bool) (l : list A) :
  Forall (fun x => p x = false) l -> find p l = None.
Proof.
  induction 1 as [|x l Hx _ IH]; simpl; [reflexivity|].
  rewrite Hx. exact IH.
Qed.

(** X13: A task created with a string title is listed for its owner with
    [completed] false; its owner can delete it, which puts the task table
    back as it was before the creation, while the id counter has moved on;
    after that a [DELETE] or a [PATCH] of the same id is answered 404. *)
Theorem task_created_listed_deleted_gone
    (Number : string -> JsNumber) (user : ReqUser.t)
    (create delete patch : Request) (db : Db) (s : string) :
  well_formed db ->
  Prisma.Int_fits (task_seq db) = true ->
  prop "title" (req_body create) = Some (JStr s) -> s <> "" ->
  Prisma.user_by_id (ReqUser.id user) db <> None ->
  Number (params_id delete) = JsInt (task_seq db) ->
  Number (params_id patch) = JsInt (task_seq db) ->
  (prop "title" (req_body patch) <> None \/ prop "completed" (req_body patch) <> None) ->
  trimmed_title (prop "title" (req_body patch)) <> None ->
  let t := Task.mk (task_seq db) (trim s) false (ReqUser.id user) (now db) (now db) in
  exists db1 db2,
    router_post_tasks user create db = (Resolved (json 201 (task_json t)), db1) /\
    (exists l,
       router_get_tasks user db1 = (Resolved (json 200 (JArr (map task_json l))), db1) /\
       In t l) /\
    router_delete_task Number user delete db1 = (Resolved (mkResponse 204 NoBody), db2) /\
    tasks db2 = tasks db /\
    users db2 = users db /\
    task_seq db2 = task_seq db + 1 /\
    router_delete_task Number user delete db2 =
      (Resolved (json 404 (error_json "Tarea no encontrada")), db2) /\
    router_patch_task Number user patch db2 =
      (Resolved (json 404 (error_json "Tarea no encontrada")), db2).
Proof.
  intros Hwf Hfit Hs Hne Hu Hd Hp Hf Hprint t.
  pose proof (fresh_task_id db Hwf) as Hfresh.
  assert (Hfresh' : Forall (fun x => ((Task.id x =? task_seq db)
                                        && (Task.userId x =? ReqUser.id user))%bool = false)
                           (tasks db)).
  { eapply Forall_impl; [|exact Hfresh]. simpl. intros a ->. reflexivity. }
  set (db1 := mkDb (users db) (tasks db ++ [t]) (companies db)
                   (user_seq db) (task_seq db + 1) (company_seq db) (now db)).
  set (db2 := Prisma.set_tasks
                (filter (fun x => negb (Task.id x =? task_seq db)) (tasks db1)) db1).
  assert (L1 : Prisma.task_by_id_owner (task_seq db) (ReqUser.id user) db1 = Some t).
  { unfold Prisma.task_by_id_owner, db1. cbn [tasks].
    apply find_snoc_none; [apply find_none_of; exact Hfresh'|].
    cbn [Task.id Task.userId t]. rewrite !Z.eqb_refl. reflexivity. }
  assert (L2 : Prisma.task_by_id (task_seq db) db1 = Some t).
  { unfold Prisma.task_by_id, db1. cbn [tasks].
    apply find_snoc_none; [apply find_none_of; exact Hfresh|].
    cbn [Task.id t]. apply Z.eqb_refl. }
  assert (T2 : tasks db2 = tasks db).
  { unfold db2, db1, Prisma.set_tasks. cbn [tasks].
    rewrite filter_app. cbn [filter Task.id t]. rewrite Z.eqb_refl.
    cbn [negb]. rewrite app_nil_r. apply filter_all.
    eapply Forall_impl; [|exact Hfresh]. cbv beta. intros a ->. reflexivity. }
  assert (L3 : Prisma.task_by_id_owner (task_seq db) (ReqUser.id user) db2 = None).
  { unfold Prisma.task_by_id_owner. rewrite T2.
    apply find_none_of. exact Hfresh'. }
  exists db1, db2.
  split; [|split; [|split; [|split; [|split; [|split; [|split]]]]]].
  - apply truthy_string in Hne. rewrite <- Hs in Hne.
    rewrite router_post_tasks_run, Hne, Hs. cbn [negb String_of String_].
    destruct (Prisma.user_by_id (ReqUser.id user) db); [reflexivity|contradiction].
  - eexists. split; [reflexivity|].
    apply sort_desc_In. apply filter_In. split.
    + unfold db1. cbn [tasks]. apply in_or_app. right. left. reflexivity.
    + apply Z.eqb_refl.
  - rewrite (router_delete_task_run _ _ _ _ _ Hd Hfit), L1, L2. reflexivity.
  - exact T2.
  - reflexivity.
  - reflexivity.
  - rewrite (router_delete_task_run _ _ _ _ _ Hd Hfit), L3. reflexivity.
  - destruct (trimmed_title (prop "title" (req_body patch))) as [title|] eqn:Et;
      [|contradiction].
    rewrite (router_patch_task_run _ _ _ _ _ _ Hp Hfit Hf Et), L3. reflexivity.
Qed.

Lemma task_created_listed_deleted_gone_witness :
  exists db1 db2,
    router_post_tasks Sample.as_alice (Sample.request "" [("title", JStr "buy eggs")])
      Sample.db =
      (Resolved (json 201 (task_json (Task.mk 3 "buy eggs" false 1 1000 1000))), db1) /\
    router_delete_task Sample.Number Sample.as_alice (Sample.request "3" []) db1 =
      (Resolved (mkResponse 204 NoBody), db2) /\
    tasks db2 = [Sample.milk; Sample.bricks] /\
    router_delete_task Sample.Number Sample.as_alice (Sample.request "3" []) db2 =
      (Resolved (json 404 (error_json "Tarea no encontrada")), db2).
Proof.
  destruct (task_created_listed_deleted_gone Sample.Number Sample.as_alice
              (Sample.request "" [("title", JStr "buy eggs")])
              (Sample.request "3" [])
              (Sample.request "3" [("completed", JBool true)]) Sample.db "buy eggs")
    as (db1 & db2 & H1 & _ & H3 & H4 & _ & _ & H7 & _).
  - constructor; simpl;
      repeat constructor; simpl; try lia; try discriminate;
      intuition discriminate.
  - reflexivity.
  - reflexivity.
  - discriminate.
  - discriminate.
  - reflexivity.
  - reflexivity.
  - right. discriminate.
  - discriminate.
  - exists db1, db2. repeat split; assumption.
Defined.

(** ** What an update changes *)

(** X14: A [PATCH] of one's own task with a string title, or none, changes
    the fields the body names and the update time, and nothing else of the
    task: id, owner and creation time stay, as does a field the body leaves
    out; the number of tasks is the same, and the owner lookup then returns
    the task as the response shows it. *)
Theorem patch_changes_only_named_fields
    (Number : string -> JsNumber) (user : ReqUser.t) (req : Request)
    (db : Db) (i : Z) (t : Task.t) (title : option string) :
  well_formed db ->
  Number (params_id req) = JsInt i ->
  Prisma.Int_fits i = true ->
  prop "title" (req_body req) = option_map JStr title ->
  (title <> None \/ prop "completed" (req_body req) <> None) ->
  Prisma.task_by_id_owner i (ReqUser.id user) db = Some t ->
  exists t' db',
    router_patch_task Number user req db = (Resolved (json 200 (task_json t')), db') /\
    Task.id t' = Task.id t /\
    Task.userId t' = Task.userId t /\
    Task.createdAt t' = Task.createdAt t /\
    Task.updatedAt t' = now db /\
    Task.title t' = match title with
                    | Some s => trim s
                    | None => Task.title t
                    end /\
    Task.completed t' = match prop "completed" (req_body req) with
                        | Some v => Boolean v
                        | None => Task.completed t
                        end /\
    List.length (tasks db') = List.length (tasks db) /\
    Prisma.task_by_id_owner i (ReqUser.id user) db' = Some t'.
Proof.
  intros Hwf HN Hfit Htitle Hf Hl.
  destruct (owned_task_exists _ _ _ _ Hl) as [t0 H0].
  assert (t0 = t) as ->.
  { apply find_some in H0. destruct H0 as [Hin Hid]. apply Z.eqb_eq in Hid.
    apply (owned_task_is_the_task _ _ _ _ _ Hwf Hl Hin Hid). }
  assert (Hnamed : prop "title" (req_body req) <> None \/
                   prop "completed" (req_body req) <> None).
  { destruct Hf as [H|H]; [left|right; exact H].
    rewrite Htitle. destruct title; [discriminate|contradiction]. }
  assert (Ht : trimmed_title (prop "title" (req_body req)) = Some (option_map trim title)).
  { rewrite Htitle. destruct title; reflexivity. }
  rewrite (router_patch_task_run _ _ _ db _ _ HN Hfit Hnamed Ht). rewrite Hl, H0.
  do 2 eexists. split; [reflexivity|].
  repeat split.
  - destruct title; reflexivity.
  - destruct (prop "completed" (req_body req)); reflexivity.
  - simpl. apply length_map.
  - apply lookup_after_update. exact Hl.
Qed.

Lemma patch_changes_only_named_fields_witness :
  exists t' db',
    router_patch_task Sample.Number Sample.as_alice
      (Sample.request "1" [("completed", JBool true)]) Sample.db =
      (Resolved (json 200 (task_json t')), db') /\
    Task.id t' = 1 /\ Task.userId t' = 1 /\ Task.createdAt t' = 950 /\
    Task.updatedAt t' = 1000 /\ Task.title t' = "buy milk" /\
    Task.completed t' = true /\
    List.length (tasks db') = 2%nat /\
    Prisma.task_by_id_owner 1 1 db' = Some t'.
Proof.
  refine (patch_changes_only_named_fields Sample.Number Sample.as_alice
            (Sample.request "1" [("completed", JBool true)]) Sample.db 1 Sample.milk
            None _ eq_refl eq_refl eq_refl _ eq_refl).
  - constructor; simpl;
      repeat constructor; simpl; try lia; try discriminate;
      intuition discriminate.
  - right. discriminate.
Defined.

(** ** Starting the final service *)

(** X15: the final service listens exactly when the signing secret is not
    empty, the database connects and the port is one [app.listen] takes, an
    integer from 0 to 65535; with any other port [app.listen] throws after
    the database has connected.  The port is neither [NaN] nor 0 (4000 when
    [PORT] is unset or reads as one of those).  Whenever the service does
    not listen, the process ends with exit code 1. *)
Theorem final_start_outcomes
    (Number : string -> JsNumber) (env : Env) (connects : bool) :
  (accepts_connections (run_start Number env connects) = true <->
   JWT_SECRET env <> "" /\ connects = true /\ port_ok (PORT Number env) = true) /\
  (JWT_SECRET env <> "" -> connects = true -> port_ok (PORT Number env) = true ->
   run_start Number env connects =
   [PrismaConnect; ConsoleLog "✅ Prisma conectado a la DB";
    Listen (PortNumber (PORT Number env))]) /\
  (JWT_SECRET env <> "" -> connects = true -> port_ok (PORT Number env) = false ->
   exists e,
     run_start Number env connects =
     [PrismaConnect; ConsoleLog "✅ Prisma conectado a la DB";
      ConsoleError "❌ Error al iniciar:" e; Exit 1]) /\
  (accepts_connections (run_start Number env connects) = false ->
   last (run_start Number env connects) PrismaConnect = Exit 1) /\
  PORT Number env <> JsNaN /\
  PORT Number env <> JsInt 0 /\
  (env_PORT env = None -> PORT Number env = JsInt 4000).
Proof.
  unfold run_start, start.
  split; [|split; [|split; [|split; [|split; [|split]]]]].
  - destruct (JWT_SECRET env) eqn:E; simpl.
    + split; [discriminate|]. intros [H _]. contradiction.
    + destruct connects; simpl.
      * destruct (port_ok (PORT Number env)); simpl; split; auto; try discriminate.
        -- intros _. repeat split; discriminate.
        -- intros (_ & _ & H). discriminate.
      * split; [discriminate|]. intros (_ & H & _). discriminate.
  - intros Hs -> Hp. rewrite Hp. destruct (JWT_SECRET env); [contradiction|reflexivity].
  - intros Hs -> Hp. rewrite Hp. destruct (JWT_SECRET env); [contradiction|].
    eexists. reflexivity.
  - destruct (JWT_SECRET env); simpl; [reflexivity|].
    destruct connects; simpl; [|reflexivity].
    destruct (port_ok (PORT Number env)); simpl; [discriminate|reflexivity].
  - unfold PORT. destruct (env_PORT env) as [s|]; [|discriminate].
    destruct (Number s) as [|z|]; simpl; try discriminate.
    destruct (z =? 0); discriminate.
  - unfold PORT. destruct (env_PORT env) as [s|]; [|discriminate].
    destruct (Number s) as [|z|]; simpl; try discriminate.
    destruct (z =? 0) eqn:E; simpl; [discriminate|].
    apply Z.eqb_neq in E. congruence.
  - intros H. unfold PORT. rewrite H. reflexivity.
Qed.

Lemma final_start_outcomes_witness :
  run_start Sample.Number Sample.env true =
  [PrismaConnect; ConsoleLog "✅ Prisma conectado a la DB";
   Listen (PortNumber (JsInt 4000))].
Proof.
  refine (proj1 (proj2 (final_start_outcomes Sample.Number Sample.env true))
            _ eq_refl eq_refl).
  discriminate.
Defined.


(** ** Creating a user outside registration *)

(** X16: [POST /users] of the final router is closed (404, nothing written)
    unless [NODE_ENV] is [development], which it is also when the variable
    is unset or empty.  When open, a falsy field gets 400; an email some
    user already has gets 409 through the store's unique-constraint error,
    with nothing written; a new email stores the row a registration would
    store and gets 201 with the selected fields. *)
Theorem dev_users_route_outcomes
    (bcrypt_hash : string -> Z -> string) (env : Env) (req : Request) (db : Db) :
  let email := prop "email" (req_body req) in
  let password := prop "password" (req_body req) in
  let name := prop "name" (req_body req) in
  (NODE_ENV env <> "development" ->
   router_post_users bcrypt_hash env req db =
   (Resolved (json 404 (error_json "Not found")), db)) /\
  (env_NODE_ENV env = None \/ env_NODE_ENV env = Some "" ->
   NODE_ENV env = "development") /\
  (NODE_ENV env = "development" ->
   ((truthy email && truthy password && truthy name)%bool = false ->
    router_post_users bcrypt_hash env req db =
    (Resolved (json 400 (error_json "email, password y name son obligatorios")), db)) /\
   (forall e p n,
      email = Some (JStr e) -> e <> "" ->
      password = Some (JStr p) -> p <> "" ->
      name = Some (JStr n) -> n <> "" ->
      router_post_users bcrypt_hash env req db =
      match Prisma.user_by_email e db with
      | Some _ => (Resolved (json 409 (error_json "Ese email ya existe")), db)
      | None =>
          (Resolved (json 201 (select_user (registered bcrypt_hash e p n db))),
           add_user (registered bcrypt_hash e p n db) db)
      end)).
Proof.
  intros email password name. split; [|split].
  - intros H. unfold router_post_users.
    destruct (String.eqb_spec (NODE_ENV env) "development"); [contradiction|reflexivity].
  - unfold NODE_ENV. intros [H|H]; rewrite H; reflexivity.
  - intros Hdev. unfold router_post_users. rewrite Hdev.
    fold email password name. split.
    + intros H. destruct (truthy email), (truthy password), (truthy name);
        try discriminate; reflexivity.
    + intros e p n He Hne Hp Hnp Hn Hnn. apply truthy_string in Hne, Hnp, Hnn.
      rewrite He, Hp, Hn, Hne, Hnp, Hnn. simpl. unfold bcrypt_hash_async. run. simpl.
      destruct (Prisma.user_by_email e db); reflexivity.
Qed.

Lemma dev_users_route_outcomes_witness :
  router_post_users Sample.bcrypt_hash Sample.env
    (Sample.request "" [("email", JStr "alice@example.com");
                        ("password", JStr "x");
                        ("name", JStr "Alice again")]) Sample.db =
  (Resolved (json 409 (error_json "Ese email ya existe")), Sample.db).
Proof.
  refine (proj2 (proj2 (proj2 (dev_users_route_outcomes Sample.bcrypt_hash Sample.env
            (Sample.request "" [("email", JStr "alice@example.com");
                                ("password", JStr "x");
                                ("name", JStr "Alice again")]) Sample.db))
            eq_refl)
          "alice@example.com" "x" "Alice again" eq_refl _ eq_refl _ eq_refl _);
    discriminate.
Defined.
(** ** The two [PATCH] handlers *)

Lemma app_patch_task_refused_id (Number : string -> JsNumber) (user : ReqUser.t)
    (req : Request) (db : Db) :
  refused_id (Number (params_id req)) ->
  app_patch_task Number user req db =
  (Resolved (json 500 (error_detail_json "Error actualizando tarea"
                                         (Prisma.validation_error "id"))), db).
Proof.
  intros Hid. unfold app_patch_task. rewrite (refused_id_not_NaN _ Hid).
  unfold try_catch, bind at 1. unfold Prisma.task_findFirst.
  unfold bind at 1. rewrite (refused_id_int_arg _ db Hid). reflexivity.
Qed.

(** X17: on a body that names a field, with [title] left out or a string with
    no white space at its ends, the earlier and the final [PATCH] handlers
    give the same response and the same store, whatever the id. *)
Theorem patch_handlers_agree
    (Number : string -> JsNumber) (user : ReqUser.t) (req : Request)
    (db : Db) (title : option string) :
  prop "title" (req_body req) = option_map JStr title ->
  match title with Some s => trim s = s | None => True end ->
  (title <> None \/ prop "completed" (req_body req) <> None) ->
  app_patch_task Number user req db = router_patch_task Number user req db.
Proof.
  intros Ht Htrim Hf.
  assert (Hf' : prop "title" (req_body req) <> None \/
                prop "completed" (req_body req) <> None).
  { destruct Hf as [H|H]; [left|right; exact H].
    rewrite Ht. destruct title; [discriminate|contradiction]. }
  assert (Htitle : trimmed_title (prop "title" (req_body req)) = Some title).
  { rewrite Ht. destruct title; simpl; [rewrite Htrim|]; reflexivity. }
  destruct (not_NaN_cases (Number (params_id req))) as [HN|[Hid|(i & HN & Hfit)]].
  - unfold app_patch_task, router_patch_task. rewrite HN. reflexivity.
  - rewrite (app_patch_task_refused_id _ _ _ _ Hid).
    rewrite (router_patch_task_refused_id _ _ _ _ _ Hid Hf' Htitle). reflexivity.
  - rewrite (app_patch_task_run _ _ _ db _ title HN Hfit Ht Hf).
    rewrite (router_patch_task_run _ _ _ db _ _ HN Hfit Hf' Htitle).
    reflexivity.
Qed.

Lemma patch_handlers_agree_witness :
  app_patch_task Sample.Number Sample.as_alice
    (Sample.request "1" [("title", JStr "buy oat milk")]) Sample.db =
  router_patch_task Sample.Number Sample.as_alice
    (Sample.request "1" [("title", JStr "buy oat milk")]) Sample.db.
Proof.
  refine (patch_handlers_agree Sample.Number Sample.as_alice
            (Sample.request "1" [("title", JStr "buy oat milk")]) Sample.db
            (Some "buy oat milk") eq_refl eq_refl _).
  left. discriminate.
Defined.


(** ** Routes without a valid token *)

(** X8: when [jwt.verify] accepts no token, [GET /me] and the four task routes
    answer 401 to every request and leave the store as it was. *)
Theorem protected_routes_need_a_valid_token
    (jwt_verify : string -> string -> Z -> option ReqUser.t)
    (Number : string -> JsNumber) (env : Env) (req : Request) (db : Db) :
  (forall tok, jwt_verify tok (JWT_SECRET env) (now db) = None) ->
  let rejected (m : Async Response) :=
    exists msg, m db = (Resolved (json 401 (error_json msg)), db) in
  rejected (route_get_me jwt_verify env req) /\
  rejected (route_get_tasks jwt_verify env req) /\
  rejected (route_post_tasks jwt_verify env req) /\
  rejected (route_patch_task jwt_verify Number env req) /\
  rejected (route_delete_task jwt_verify Number env req).
Proof.
  intros Hv rejected.
  assert (G : forall next, rejected (auth jwt_verify env req next)).
  { intros next. unfold rejected, auth. cbv zeta.
    match goal with |- context [if ?c then _ else _] => destruct c end.
    - eexists. reflexivity.
    - rewrite Hv. eexists. reflexivity. }
  repeat split; apply G.
Qed.

Lemma protected_routes_need_a_valid_token_witness :
  exists msg,
    route_delete_task (fun _ _ _ => None) Sample.Number Sample.env
      (mkRequest (Some "Bearer forged") "1" []) Sample.db =
    (Resolved (json 401 (error_json msg)), Sample.db).
Proof.
  refine (proj2 (proj2 (proj2 (proj2 (protected_routes_need_a_valid_token
            (fun _ _ _ => None) Sample.Number Sample.env
            (mkRequest (Some "Bearer forged") "1" []) Sample.db _))))).
  reflexivity.
Defined.

(** ** The two [POST /tasks] handlers *)


